(** * meadGenerator: the gravity and ingredient calculator

    A shallow embedding of [meadGenerator.c] (the text-prompt calculator) and
    of the calculation core of its GTK sibling, [calculate_ingredients].

    - C [double] is IEEE 754 binary64: the kernel's primitive [float], with
      its operations rounding to nearest-even as the C ones do when every
      expression is evaluated in double precision; decimal literals denote
      the nearest double, in C as here.
    - C [int] values ([abv], [is_turbo], [choice]) are [Z].
    - C strings are [string]s; reading stops at the first NUL byte.
    - [printf] output is a list of abstract output lines, in program order. *)

From Stdlib Require Import ZArith QArith Qround Qabs List Bool Lia Ascii String.
From Stdlib Require Import Floats.
Import ListNotations.

Set Warnings "-inexact-float".

Local Open Scope Z_scope.

(** ** C doubles *)

Module Double.

(** [(double) z] for an [int] (in fact for any |z| < 2^63): exact below
    2^53, rounded to nearest above. *)
Definition of_int (z : Z) : float :=
  if z <? 0 then PrimFloat.opp (PrimFloat.of_uint63 (Uint63.of_Z (- z)))
  else PrimFloat.of_uint63 (Uint63.of_Z z).

(** libm [round]: nearest integer, halfway cases away from zero; zeros,
    infinities and NaN are returned unchanged.  A finite double is
    [(-1)^s * m * 2^e]; with [e < 0] the integer part is [m / 2^-e] and the
    fraction [m mod 2^-e] is compared with one half. *)
Definition round (x : float) : float :=
  match Prim2SF x with
  | S754_finite s m e =>
      if 0 <=? e then x
      else
        let d := 2 ^ (- e) in
        let q := Z.pos m / d in
        let r := Z.pos m mod d in
        let n := if d <=? 2 * r then q + 1 else q in
        let f := PrimFloat.of_uint63 (Uint63.of_Z n) in
        if s then PrimFloat.opp f else f
  | _ => x
  end.

(** libm [fmax]: the larger argument; a NaN argument is ignored. *)
Definition fmax (x y : float) : float :=
  if PrimFloat.is_nan x then y
  else if PrimFloat.is_nan y then x
  else if PrimFloat.ltb x y then y else x.

(** The exact rational value of a finite double (0 for the others). *)
Definition to_Q (x : float) : Q :=
  match Prim2SF x with
  | S754_finite s m e =>
      let v := if 0 <=? e then inject_Z (Z.pos m * 2 ^ e)
               else Qmake (Z.pos m) (Z.to_pos (2 ^ (- e))) in
      if s then Qopp v else v
  | _ => 0%Q
  end.

Definition is_finite (x : float) : bool :=
  match Prim2SF x with
  | S754_finite _ _ _ | S754_zero _ => true
  | _ => false
  end.

End Double.

(** ** C strings and [strcasecmp] *)

Definition byte_of (c : ascii) : Z := Z.of_N (N_of_ascii c).

(** [*p]: the byte a [char*] points at; past the end it is the NUL. *)
Definition deref (p : string) : Z :=
  match p with
  | EmptyString => 0
  | String c _ => byte_of c
  end.

(** [p + 1] *)
Definition next (p : string) : string :=
  match p with
  | EmptyString => EmptyString
  | String _ r => r
  end.

(** [tolower] in the C locale. *)
Definition tolower (c : Z) : Z :=
  if (65 <=? c) && (c <=? 90) then c + 32 else c.

(** [strcasecmp]: walk both strings while the lowered bytes agree, stopping
    at the NUL; the result is the difference of the first lowered bytes that
    differ. *)
Fixpoint strcasecmp (p1 p2 : string) : Z :=
  let result := tolower (deref p1) - tolower (deref p2) in
  if result =? 0 then
    match p1 with
    | EmptyString => 0
    | String c r => if byte_of c =? 0 then 0 else strcasecmp r (next p2)
    end
  else result.

(** ** Program output *)

Inductive unit_name := Lbs | Kg | Gallons | Liters.

Inductive line :=
| Menu
| InvalidSelection
| InvalidVolume
| InvalidABV
| InvalidYeast
| InvalidSweetnessInput
| NoteTurbo
| ErrInvalidSweetness
| WarnHighOG (og : float)
| HdrResults
| OutTargetOG (og : float)
| OutHoney (amount : float) (u : unit_name)
| OutWaterZero (u : unit_name)
| OutWater (amount : float) (u : unit_name)
| OutPoints (points : float)
| Complete.

(** ** meadGenerator.c *)

Local Open Scope float_scope.

Definition GRAVITY_POINTS_PER_UNIT : float := 35.0.
Definition KG_TO_LBS : float := 2.20462.
Definition L_TO_GAL : float := 0.264172.

(** The tail of [get_target_og], after [fg] is set. *)
Definition og_of_fg (fg : float) (abv : Z) : float :=
  let og := fg + (Double.of_int abv / 131.25) in
  Double.round (og * 1000.0) / 1000.0.

(** [get_target_og]: the returned double and the lines printed. *)
Definition get_target_og (abv : Z) (sweetness : string) (is_turbo : Z)
  : float * list line :=
  if (is_turbo =? 1)%Z then
    if (strcasecmp sweetness "Dry" =? 0)%Z then (og_of_fg 1.000 abv, [])
    else if (strcasecmp sweetness "Semi-Sweet" =? 0)%Z then (og_of_fg 1.010 abv, [])
    else if (strcasecmp sweetness "Sweet" =? 0)%Z then (og_of_fg 1.020 abv, [])
    else if (strcasecmp sweetness "Dessert" =? 0)%Z then (og_of_fg 1.030 abv, [])
    else (0.0, [])
  else (og_of_fg 1.000 abv, [NoteTurbo]).

(** The water line both calculators print: zero with a remark when the
    honey alone fills the batch, the amount otherwise. *)
Definition water_line (water : float) (u : unit_name) : line :=
  if water <=? 0.0 then OutWaterZero u else OutWater water u.

(** [calculate_us_imperial]: the lines printed. *)
Definition calculate_us_imperial (volume_gal target_og : float) : list line :=
  let gravity_points_needed := (target_og - 1.000) * 1000.0 * volume_gal in
  let honey_lbs := gravity_points_needed / GRAVITY_POINTS_PER_UNIT in
  let honey_volume_gal := honey_lbs / 10.0 * 0.65 in
  let water_gal := volume_gal - honey_volume_gal in
  [ OutTargetOG target_og;
    OutHoney honey_lbs Lbs;
    water_line water_gal Gallons;
    OutPoints gravity_points_needed ].

(** [calculate_metric]: the lines printed. *)
Definition calculate_metric (volume_L target_og : float) : list line :=
  let volume_gal := volume_L * L_TO_GAL in
  let gravity_points_needed := (target_og - 1.000) * 1000.0 * volume_gal in
  let honey_lbs_calc := gravity_points_needed / GRAVITY_POINTS_PER_UNIT in
  let honey_kg := honey_lbs_calc / KG_TO_LBS in
  let honey_volume_L := honey_kg * 0.74 in
  let water_L := volume_L - honey_volume_L in
  [ OutTargetOG target_og;
    OutHoney honey_kg Kg;
    water_line water_L Liters;
    OutPoints gravity_points_needed ].

(** [main], as a function of the five values it reads: the exit status and
    the lines printed (prompts left out).  It is the program when each
    [scanf] has parsed its value and the sweetness token, which [scanf]
    stores whole with a terminating NUL, fits the 20 bytes of
    [sweetness_str], that is, has fewer than 20 bytes; [run] below adds the
    reads that fail and the token that does not fit. *)
Definition main (choice : Z) (volume : float) (abv : Z)
    (sweetness_str : string) (is_turbo_mode : Z) : Z * list line :=
  if negb (choice =? 1)%Z && negb (choice =? 2)%Z then
    (1%Z, [Menu; InvalidSelection])
  else if volume <=? 0.0 then
    (1%Z, [Menu; InvalidVolume])
  else if (abv <? 5)%Z || (abv >? 25)%Z then
    (1%Z, [Menu; InvalidABV])
  else if negb (is_turbo_mode =? 1)%Z && negb (is_turbo_mode =? 2)%Z then
    (1%Z, [Menu; InvalidYeast])
  else
    let (target_og, note) := get_target_og abv sweetness_str is_turbo_mode in
    if target_og =? 0.0 then
      (1%Z, Menu :: note ++ [ErrInvalidSweetness])
    else if 1.225 <? target_og then
      (1%Z, Menu :: note ++ [WarnHighOG target_og])
    else
      (0%Z, Menu :: note ++ [HdrResults]
              ++ (if (choice =? 1)%Z then calculate_us_imperial volume target_og
                  else calculate_metric volume target_og)
              ++ [Complete]).

(** The whole of [main], on what its five [scanf] calls meet, in program
    order: [None] as an input is a read that fails ([scanf] does not
    return 1), after which the program prints the same message as for a bad
    value and exits.  The result is [None] where the C program has no defined
    behaviour: when the sweetness is read and its token has 20 bytes or more,
    [scanf] writes past the end of [char sweetness_str[20]]. *)
Definition run (choice : option Z) (volume : option float) (abv : option Z)
    (sweetness_str : option string) (is_turbo_mode : option Z)
  : option (Z * list line) :=
  match choice with
  | None => Some (1%Z, [Menu; InvalidSelection])
  | Some choice =>
  if negb (choice =? 1)%Z && negb (choice =? 2)%Z then
    Some (1%Z, [Menu; InvalidSelection])
  else
  match volume with
  | None => Some (1%Z, [Menu; InvalidVolume])
  | Some volume =>
  if volume <=? 0.0 then Some (1%Z, [Menu; InvalidVolume])
  else
  match abv with
  | None => Some (1%Z, [Menu; InvalidABV])
  | Some abv =>
  if (abv <? 5)%Z || (abv >? 25)%Z then Some (1%Z, [Menu; InvalidABV])
  else
  match sweetness_str with
  | None => Some (1%Z, [Menu; InvalidSweetnessInput])
  | Some sweetness_str =>
  if (20 <=? String.length sweetness_str)%nat then None
  else
  match is_turbo_mode with
  | None => Some (1%Z, [Menu; InvalidYeast])
  | Some is_turbo_mode =>
  if negb (is_turbo_mode =? 1)%Z && negb (is_turbo_mode =? 2)%Z then
    Some (1%Z, [Menu; InvalidYeast])
  else
    let (target_og, note) := get_target_og abv sweetness_str is_turbo_mode in
    if target_og =? 0.0 then
      Some (1%Z, Menu :: note ++ [ErrInvalidSweetness])
    else if 1.225 <? target_og then
      Some (1%Z, Menu :: note ++ [WarnHighOG target_og])
    else
      Some (0%Z, Menu :: note ++ [HdrResults]
                   ++ (if (choice =? 1)%Z then calculate_us_imperial volume target_og
                       else calculate_metric volume target_og)
                   ++ [Complete])
  end end end end end.

(** ** The GTK front end's calculation *)

Module Gtk.

Inductive message :=
| MsgInvalidSweetness
| MsgWarnHighOG
| MsgCleared
| MsgTurboDone
| MsgDone.

(** What [calculate_ingredients] writes into the result labels. *)
Record results := {
  og_shown : float;
  fg_shown : float;
  honeyAmount : float;
  honeyUnit : unit_name;
  waterAmount : float;
  waterUnit : unit_name
}.

(** [calculate_ingredients]: the final text of the message label, and the
    result labels when they are written.  The front end's own copy of
    [get_target_og] is the one above without the Turbo note, so only the
    returned double is used here. *)
Definition calculate_ingredients (volume_val : float) (abv_val : Z)
    (unit_str sweetness_str : string) (is_turbo_mode : Z)
  : message * option results :=
  let target_og := fst (get_target_og abv_val sweetness_str is_turbo_mode) in
  if target_og =? 0.0 then (MsgInvalidSweetness, None)
  else
    let msg := if 1.225 <? target_og then MsgWarnHighOG else MsgCleared in
    let fg :=
      if (is_turbo_mode =? 1)%Z then
        if (strcasecmp sweetness_str "Dry" =? 0)%Z then 1.000
        else if (strcasecmp sweetness_str "Semi-Sweet" =? 0)%Z then 1.010
        else if (strcasecmp sweetness_str "Sweet" =? 0)%Z then 1.020
        else 1.030
      else 1.000 in
    let res :=
      if (strcasecmp unit_str "Gallons" =? 0)%Z then
        let volume_gal := volume_val in
        let gravity_points_needed := (target_og - 1.000) * 1000.0 * volume_gal in
        let honey_lbs := gravity_points_needed / GRAVITY_POINTS_PER_UNIT in
        let honey_volume_gal := (honey_lbs / 10.0) * 0.65 in
        let water_gal := volume_gal - honey_volume_gal in
        {| og_shown := target_og; fg_shown := fg;
           honeyAmount := honey_lbs; honeyUnit := Lbs;
           waterAmount := Double.fmax 0.0 water_gal; waterUnit := Gallons |}
      else
        let volume_L := volume_val in
        let volume_gal := volume_L * L_TO_GAL in
        let gravity_points_needed := (target_og - 1.000) * 1000.0 * volume_gal in
        let honey_lbs_calc := gravity_points_needed / GRAVITY_POINTS_PER_UNIT in
        let honey_kg := honey_lbs_calc / KG_TO_LBS in
        let honey_volume_L := honey_kg * 0.74 in
        let water_L := volume_L - honey_volume_L in
        {| og_shown := target_og; fg_shown := fg;
           honeyAmount := honey_kg; honeyUnit := Kg;
           waterAmount := Double.fmax 0.0 water_L; waterUnit := Liters |} in
    let msg' :=
      if (is_turbo_mode =? 2)%Z then MsgTurboDone
      else if target_og <=? 1.225 then MsgDone
      else msg in
    (msg', Some res).

End Gtk.

(** ** Reading the results off the output *)

(** The top-off water a run reports: the amount on its water line. *)
Fixpoint reported_water (out : list line) : option float :=
  match out with
  | [] => None
  | OutWaterZero _ :: _ => Some 0.0
  | OutWater w _ :: _ => Some w
  | _ :: rest => reported_water rest
  end.

Fixpoint reported_honey (out : list line) : option (float * unit_name) :=
  match out with
  | [] => None
  | OutHoney h u :: _ => Some (h, u)
  | _ :: rest => reported_honey rest
  end.

Fixpoint reported_points (out : list line) : option float :=
  match out with
  | [] => None
  | OutPoints p :: _ => Some p
  | _ :: rest => reported_points rest
  end.

(** No result line at all: neither gravity, honey, water nor points. *)
Definition is_result_line (l : line) : bool :=
  match l with
  | HdrResults | OutTargetOG _ | OutHoney _ _ | OutWaterZero _
  | OutWater _ _ | OutPoints _ | Complete => true
  | _ => false
  end.

Local Close Scope float_scope.

(** ** The specification's terms

    Written from the specification's words, in exact arithmetic, to compare
    with what the program computes in doubles. *)

Module Spec.

Inductive sweetness := Dry | SemiSweet | Sweet | Dessert.

Definition all_levels : list sweetness := [Dry; SemiSweet; Sweet; Dessert].

Definition label (l : sweetness) : string :=
  match l with
  | Dry => "Dry"
  | SemiSweet => "Semi-Sweet"
  | Sweet => "Sweet"
  | Dessert => "Dessert"
  end.

(** The final-gravity table, in thousandths: 1.000, 1.010, 1.020, 1.030. *)
Definition fg_millis (l : sweetness) : Z :=
  match l with
  | Dry => 1000
  | SemiSweet => 1010
  | Sweet => 1020
  | Dessert => 1030
  end.

Definition final_gravity (l : sweetness) : Q := inject_Z (fg_millis l) / 1000.

(** Nearest integer, halves away from zero, of an exact rational. *)
Definition round_half_away (q : Q) : Z :=
  if Qle_bool 0 q then Qfloor (q + (1 # 2)) else Qceiling (q - (1 # 2)).

(** [round (FG + ABV / 131.25, 3)] in exact arithmetic, in thousandths. *)
Definition og_millis (fg : Q) (abv : Z) : Z :=
  round_half_away ((fg + inject_Z abv / (13125 # 100)) * 1000).

(** The bytes of a C string, lowered: what a case-insensitive comparison
    sees. *)
Fixpoint casefold (s : string) : list Z :=
  match s with
  | EmptyString => []
  | String c r =>
      if byte_of c =? 0 then [] else tolower (byte_of c) :: casefold r
  end.

Definition matches (s : string) (l : sweetness) : Prop :=
  casefold s = casefold (label l).

Definition recognized (s : string) : Prop := exists l, matches s l.

End Spec.

(** The double a three-decimal gravity [k / 1000] denotes: the correctly
    rounded quotient, as the literal [1.117] is for [k = 1117]. *)
Definition decimal3 (k : Z) : float :=
  PrimFloat.div (Double.of_int k) 1000%float.

(** The final gravity [get_target_og] assigns on each branch of its table. *)
Definition fg_of (l : Spec.sweetness) : float :=
  match l with
  | Spec.Dry => 1.000%float
  | Spec.SemiSweet => 1.010%float
  | Spec.Sweet => 1.020%float
  | Spec.Dessert => 1.030%float
  end.

(** A finite double within [tol] of the exact decimal [q]. *)
Definition near (x : float) (q tol : Q) : bool :=
  Double.is_finite x && Qle_bool (Qabs (Double.to_Q x - q)) tol.

(** Half a unit in the last place of a double between 1 and 2: [2^-53]. *)
Definition half_ulp : Q := 1 # 9007199254740992.

(** The ABV values [main] lets through: 5, 6, ..., 25. *)
Definition abv_domain : list Z := map Z.of_nat (seq 5 21).

(** One pass over the whole validated domain: on every ABV and table row the
    double computed is the one the exact rounding denotes, it is not the
    error value, it lies between 1.038 and 1.220, and it is within half a unit
    in the last place of the exact three-decimal value. *)
Definition og_table_ok : bool :=
  forallb (fun abv =>
    forallb (fun l =>
      let og := og_of_fg (fg_of l) abv in
      PrimFloat.Leibniz.eqb og (decimal3 (Spec.og_millis (Spec.final_gravity l) abv))
      && negb (PrimFloat.eqb og 0%float)
      && PrimFloat.leb 1.038%float og
      && PrimFloat.leb og 1.220%float
      && PrimFloat.leb og 1.225%float
      && negb (PrimFloat.ltb 1.225%float og)
      && near og (Spec.og_millis (Spec.final_gravity l) abv # 1000) half_ulp)
    Spec.all_levels)
  abv_domain.

(** The same pass for the Turbo branch, whose final gravity is 1.000. *)
Definition og_turbo_ok : bool :=
  forallb (fun abv =>
    PrimFloat.Leibniz.eqb (og_of_fg 1.000%float abv) (decimal3 (Spec.og_millis 1 abv))
    && near (og_of_fg 1.000%float abv) (Spec.og_millis 1 abv # 1000) half_ulp)
  abv_domain.

Definition is_sweetness_error (l : line) : bool :=
  match l with
  | ErrInvalidSweetness => true
  | _ => false
  end.


(** Zero top-off water when the honey meets or exceeds the batch volume,
    the difference otherwise. *)
Definition clamp_zero (water : float) : float :=
  if PrimFloat.leb water 0%float then 0%float else water.

(** Two finite doubles within the relative tolerance [tol] of each other. *)
Definition agree_within (tol : Q) (a b : float) : bool :=
  Double.is_finite a && Double.is_finite b
  && Qle_bool (Qabs (Double.to_Q a - Double.to_Q b)) (tol * Qabs (Double.to_Q b)).

(** A finite value other than zero, in the IEEE specification's terms. *)
Definition finite_nonzero (x : spec_float) : Prop :=
  match x with
  | S754_finite _ _ _ => True
  | _ => False
  end.

(** A double that is a number: anything but NaN. *)
Definition is_number (x : float) : Prop := Prim2SF x <> S754_nan.

(** The three-decimal gravities from 1.001 to 1.225, in thousandths. *)
Definition gravity_domain : list Z := map Z.of_nat (seq 1001 225).

(** On each of them the gravity excess in points, [(og - 1.000) * 1000], is
    finite and not zero. *)
Definition gravity_excess_ok : bool :=
  forallb (fun k =>
    match Prim2SF (PrimFloat.mul (PrimFloat.sub (decimal3 k) 1.000%float) 1000%float) with
    | S754_finite _ _ _ => true
    | _ => false
    end)
  gravity_domain.

(** ** The GTK front end's button handler *)

Module GtkShell.

(** What a click leaves on screen: the invalid-input message alone, or what
    [calculate_ingredients] shows. *)
Inductive outcome :=
| InvalidInput
| Calculated (shown : Gtk.message * option Gtk.results).

(** [on_calculate_button_clicked], as a function of the values it reads:
    [atof] of the volume entry, [atoi] of the ABV entry, the active texts of
    the two combo boxes and the state of the switch. *)
Definition on_calculate_button_clicked (volume_val : float) (abv_val : Z)
    (unit_str sweetness_str : string) (is_turbo_active : bool) : outcome :=
  if PrimFloat.leb volume_val 0.0%float || (abv_val <=? 0) then InvalidInput
  else
    let is_turbo_mode := if is_turbo_active then 2 else 1 in
    let calculated_sweetness_str :=
      if is_turbo_mode =? 2 then "Dry"%string else sweetness_str in
    Calculated
      (Gtk.calculate_ingredients volume_val abv_val unit_str
         calculated_sweetness_str is_turbo_mode).

End GtkShell.

(** ** More readings of the output *)

(** The lines [main] prints before giving up. *)
Definition is_diagnostic (l : line) : bool :=
  match l with
  | InvalidSelection | InvalidVolume | InvalidABV | InvalidYeast
  | InvalidSweetnessInput | ErrInvalidSweetness | WarnHighOG _ => true
  | _ => false
  end.

Definition diagnostics (out : list line) : nat :=
  List.length (filter is_diagnostic out).

(** The gravity a run reports: the value on its target-OG line. *)
Fixpoint reported_og (out : list line) : option float :=
  match out with
  | [] => None
  | OutTargetOG og :: _ => Some og
  | _ :: rest => reported_og rest
  end.

(** On the whole validated domain the exact three-decimal gravity, in
    thousandths, lies between 1001 and 1225. *)
Definition og_millis_range_ok : bool :=
  forallb (fun abv =>
    forallb (fun l =>
      let k := Spec.og_millis (Spec.final_gravity l) abv in
      (1001 <=? k) && (k <=? 1225))
    Spec.all_levels)
  abv_domain.

(** ABV values above what [main] accepts, up to pure alcohol: 30, ..., 100. *)
Definition high_abv_domain : list Z := map Z.of_nat (seq 30 71).

(** On each of them, whatever the table row, the gravity computed is above
    1.225 and is not the error value. *)
Definition high_abv_ok : bool :=
  forallb (fun abv =>
    forallb (fun l =>
      let og := og_of_fg (fg_of l) abv in
      PrimFloat.ltb 1.225%float og
      && negb (PrimFloat.leb og 1.225%float)
      && negb (PrimFloat.eqb og 0%float))
    Spec.all_levels)
  high_abv_domain.

(** Over the validated domain: a higher ABV gives a higher gravity on every
    table row, and every row lies above the Dry row by its own final-gravity
    offset, exactly. *)
Definition og_order_ok : bool :=
  forallb (fun abv =>
    forallb (fun l =>
      forallb (fun abv' =>
        negb (abv <? abv')
        || PrimFloat.ltb (og_of_fg (fg_of l) abv) (og_of_fg (fg_of l) abv'))
      abv_domain
      && PrimFloat.Leibniz.eqb
           (og_of_fg (fg_of l) abv)
           (decimal3 (Spec.og_millis (Spec.final_gravity Spec.Dry) abv
                      + (Spec.fg_millis l - 1000))))
    Spec.all_levels)
  abv_domain.

(** The ABV formula of the program's comment, [(OG - FG) * 131.25], applied
    in exact arithmetic to the double returned and the table's final
    gravity, against the ABV asked for. *)
Definition abv_error (og : float) (l : Spec.sweetness) (abv : Z) : Q :=
  Qabs ((Double.to_Q og - Spec.final_gravity l) * (13125 # 100) - inject_Z abv).

Definition abv_round_trip_ok : bool :=
  forallb (fun abv =>
    forallb (fun l =>
      Double.is_finite (og_of_fg (fg_of l) abv)
      && Qle_bool (abv_error (og_of_fg (fg_of l) abv) l abv) (66 # 1000)
      && (Spec.round_half_away
            ((Double.to_Q (og_of_fg (fg_of l) abv) - Spec.final_gravity l)
             * (13125 # 100)) =? abv))
    Spec.all_levels)
  abv_domain.

(** A zero, a finite value or an infinity with the sign bit clear. *)
Definition nonneg_sf (x : spec_float) : Prop :=
  match x with
  | S754_zero false | S754_infinity false | S754_finite false _ _ => True
  | _ => False
  end.

(** A finite value above zero. *)
Definition positive_finite (x : spec_float) : Prop :=
  match x with
  | S754_finite false _ _ => True
  | _ => False
  end.

(** On each gravity from 1.001 to 1.225 the gravity excess in points is
    finite and above zero. *)
Definition gravity_excess_positive_ok : bool :=
  forallb (fun k =>
    match Prim2SF (PrimFloat.mul (PrimFloat.sub (decimal3 k) 1.000%float) 1000%float) with
    | S754_finite false _ _ => true
    | _ => false
    end)
  gravity_domain.

Definition is_turbo_note (l : line) : bool :=
  match l with
  | NoteTurbo => true
  | _ => false
  end.

(** Every ABV percentage: 1, 2, ..., 100. *)
Definition percent_domain : list Z := map Z.of_nat (seq 1 100).

(** On each of them the Turbo branch computes the double the exact rounding
    of [1.000 + abv/131.25] to three decimals denotes, within half a unit in
    the last place of it. *)
Definition og_turbo_percent_ok : bool :=
  forallb (fun abv =>
    PrimFloat.Leibniz.eqb (og_of_fg 1.000%float abv) (decimal3 (Spec.og_millis 1 abv))
    && near (og_of_fg 1.000%float abv) (Spec.og_millis 1 abv # 1000) half_ulp)
  percent_domain.

(** * Properties *)

(** ** The library functions on examples *)

Example round_examples :
  Double.round 2.5%float = 3%float
  /\ Double.round (-2.5)%float = (-3)%float
  /\ Double.round 0.49999999999999994%float = 0%float
  /\ Double.round 1116.6666666666667%float = 1117%float
  /\ Double.round 1220.4761904761904%float = 1220%float.
Proof. repeat split. Qed.

Example of_int_examples :
  Double.of_int 14 = 14%float /\ Double.of_int (-131) = (-131)%float.
Proof. split; reflexivity. Qed.

Example decimal3_examples :
  decimal3 1117 = 1.117%float /\ decimal3 1220 = 1.220%float
  /\ decimal3 1038 = 1.038%float.
Proof. repeat split. Qed.

Example strcasecmp_examples :
  strcasecmp "SEMI-sweet" "Semi-Sweet" = 0
  /\ strcasecmp "Sweet" "Semi-Sweet" = 18
  /\ strcasecmp "Dry" "Dessert" = 13
  /\ strcasecmp "Dr" "Dry" = -121.
Proof. repeat split. Qed.

(** ** [strcasecmp] *)

Lemma byte_of_nonneg (c : ascii) : 0 <= byte_of c.
Proof. unfold byte_of. lia. Qed.

Lemma tolower_eq_0 (c : Z) : tolower c = 0 <-> c = 0.
Proof.
  unfold tolower.
  destruct (65 <=? c) eqn:E1, (c <=? 90) eqn:E2; simpl; lia.
Qed.

Lemma deref_0_casefold (p : string) : deref p = 0 <-> Spec.casefold p = [].
Proof.
  destruct p as [|c r]; simpl.
  - tauto.
  - destruct (byte_of c =? 0) eqn:E; split; intro H; try lia; try discriminate.
    reflexivity.
Qed.

(** [strcasecmp] answers 0 exactly on strings with the same case-folded
    bytes. *)
Lemma strcasecmp_0_iff (p1 p2 : string) :
  strcasecmp p1 p2 = 0 <-> Spec.casefold p1 = Spec.casefold p2.
Proof.
  revert p2. induction p1 as [|c r IH]; intro p2.
  - cbn [strcasecmp deref Spec.casefold].
    change (tolower 0) with 0.
    destruct (0 - tolower (deref p2) =? 0) eqn:E.
    + apply Z.eqb_eq in E.
      assert (deref p2 = 0) as D by (apply tolower_eq_0; lia).
      apply deref_0_casefold in D. rewrite D. tauto.
    + apply Z.eqb_neq in E. split; intro H; [lia|].
      symmetry in H. apply deref_0_casefold in H.
      rewrite H in E. exfalso. apply E. reflexivity.
  - cbn [strcasecmp deref Spec.casefold].
    destruct (tolower (byte_of c) - tolower (deref p2) =? 0) eqn:E.
    + apply Z.eqb_eq in E.
      destruct (byte_of c =? 0) eqn:C0.
      * apply Z.eqb_eq in C0. rewrite C0 in E. change (tolower 0) with 0 in E.
        assert (deref p2 = 0) as D by (apply tolower_eq_0; lia).
        apply deref_0_casefold in D. rewrite D. tauto.
      * apply Z.eqb_neq in C0.
        destruct p2 as [|c2 r2]; cbn [deref next Spec.casefold] in *.
        -- exfalso. apply C0. apply tolower_eq_0. change (tolower 0) with 0 in E. lia.
        -- assert ((byte_of c2 =? 0) = false) as C2.
           { apply Z.eqb_neq. intro Z2. rewrite Z2 in E.
             change (tolower 0) with 0 in E.
             apply C0. apply tolower_eq_0. lia. }
           rewrite C2, IH.
           split; intro H.
           ++ f_equal; [lia | exact H].
           ++ now injection H.
    + apply Z.eqb_neq in E. split; intro H; [contradiction|].
      exfalso. apply E.
      destruct (byte_of c =? 0) eqn:C0.
      * symmetry in H. apply deref_0_casefold in H.
        apply Z.eqb_eq in C0. rewrite H, C0. reflexivity.
      * destruct p2 as [|c2 r2]; cbn [deref Spec.casefold] in *; [discriminate|].
        destruct (byte_of c2 =? 0); [discriminate|].
        injection H as H _. lia.
Qed.

Lemma strcasecmp_eqb_matches (s : string) (l : Spec.sweetness) :
  (strcasecmp s (Spec.label l) =? 0) = true <-> Spec.matches s l.
Proof. rewrite Z.eqb_eq. apply strcasecmp_0_iff. Qed.

Lemma strcasecmp_eqb_other (s : string) (l l' : Spec.sweetness) :
  Spec.matches s l -> l <> l' -> (strcasecmp s (Spec.label l') =? 0) = false.
Proof.
  intros M N. apply Bool.not_true_iff_false. rewrite strcasecmp_eqb_matches.
  unfold Spec.matches in *. rewrite M.
  destruct l, l'; try discriminate; contradiction.
Qed.

Lemma strcasecmp_eqb_unrecognized (s : string) (l : Spec.sweetness) :
  ~ Spec.recognized s -> (strcasecmp s (Spec.label l) =? 0) = false.
Proof.
  intros N. apply Bool.not_true_iff_false. rewrite strcasecmp_eqb_matches.
  intro M. apply N. now exists l.
Qed.

(** ** [get_target_og], branch by branch *)

Lemma get_target_og_standard (abv : Z) (s : string) (l : Spec.sweetness) :
  Spec.matches s l -> get_target_og abv s 1 = (og_of_fg (fg_of l) abv, []).
Proof.
  intro M. unfold get_target_og. cbn [Z.eqb Pos.eqb].
  pose proof (strcasecmp_eqb_other s l Spec.Dry M) as ND.
  pose proof (strcasecmp_eqb_other s l Spec.SemiSweet M) as NS.
  pose proof (strcasecmp_eqb_other s l Spec.Sweet M) as NW.
  apply strcasecmp_eqb_matches in M.
  cbn [Spec.label] in *.
  destruct l; cbn [Spec.label fg_of] in *;
    repeat first
      [ rewrite M
      | rewrite ND by discriminate
      | rewrite NS by discriminate
      | rewrite NW by discriminate ];
    reflexivity.
Qed.

Lemma get_target_og_invalid (abv : Z) (s : string) :
  ~ Spec.recognized s -> get_target_og abv s 1 = (0%float, []).
Proof.
  intro N. unfold get_target_og. cbn [Z.eqb Pos.eqb].
  pose proof (strcasecmp_eqb_unrecognized s Spec.Dry N) as H1.
  pose proof (strcasecmp_eqb_unrecognized s Spec.SemiSweet N) as H2.
  pose proof (strcasecmp_eqb_unrecognized s Spec.Sweet N) as H3.
  pose proof (strcasecmp_eqb_unrecognized s Spec.Dessert N) as H4.
  cbn [Spec.label] in *. rewrite H1, H2, H3, H4. reflexivity.
Qed.

Lemma get_target_og_not_standard (abv : Z) (s : string) (t : Z) :
  t <> 1 -> get_target_og abv s t = (og_of_fg 1.000%float abv, [NoteTurbo]).
Proof.
  intro N. unfold get_target_og.
  destruct (Z.eqb_spec t 1) as [E|_]; [contradiction|reflexivity].
Qed.

(** ** The validated domain, by evaluation *)

Lemma abv_domain_spec (abv : Z) : 5 <= abv <= 25 -> In abv abv_domain.
Proof.
  intro H. unfold abv_domain.
  replace abv with (Z.of_nat (Z.to_nat abv)) by lia.
  apply in_map, in_seq. lia.
Qed.

Lemma all_levels_spec (l : Spec.sweetness) : In l Spec.all_levels.
Proof. destruct l; simpl; tauto. Qed.

Lemma og_table_ok_true : og_table_ok = true.
Proof. vm_compute. reflexivity. Qed.

Lemma og_table (abv : Z) (l : Spec.sweetness) :
  5 <= abv <= 25 ->
  let og := og_of_fg (fg_of l) abv in
  og = decimal3 (Spec.og_millis (Spec.final_gravity l) abv)
  /\ PrimFloat.eqb og 0%float = false
  /\ PrimFloat.leb 1.038%float og = true
  /\ PrimFloat.leb og 1.220%float = true
  /\ PrimFloat.leb og 1.225%float = true
  /\ PrimFloat.ltb 1.225%float og = false
  /\ near og (Spec.og_millis (Spec.final_gravity l) abv # 1000) half_ulp = true.
Proof.
  intros R og.
  pose proof og_table_ok_true as T. unfold og_table_ok in T.
  rewrite forallb_forall in T. specialize (T abv (abv_domain_spec abv R)).
  rewrite forallb_forall in T. specialize (T l (all_levels_spec l)).
  fold og in T.
  repeat (apply andb_prop in T; destruct T as [T ?]).
  repeat match goal with
         | H : negb _ = true |- _ => apply negb_true_iff in H
         end.
  apply FloatAxioms.Leibniz.eqb_spec in T.
  repeat split; assumption.
Qed.

Lemma og_turbo (abv : Z) :
  5 <= abv <= 25 ->
  og_of_fg 1.000%float abv = decimal3 (Spec.og_millis 1 abv)
  /\ near (og_of_fg 1.000%float abv) (Spec.og_millis 1 abv # 1000) half_ulp = true.
Proof.
  intro R.
  assert (og_turbo_ok = true) as T by (vm_compute; reflexivity).
  unfold og_turbo_ok in T. rewrite forallb_forall in T.
  specialize (T abv (abv_domain_spec abv R)).
  apply andb_prop in T. destruct T as [T N].
  apply FloatAxioms.Leibniz.eqb_spec in T. now split.
Qed.

(** On the validated domain a recognized sweetness or a mode other than
    Standard gives a double of the table, with all its bounds. *)
Lemma get_target_og_valid (abv : Z) (s : string) (t : Z) :
  5 <= abv <= 25 -> t <> 1 \/ Spec.recognized s ->
  exists l note, get_target_og abv s t = (og_of_fg (fg_of l) abv, note)
                 /\ (note = [] \/ note = [NoteTurbo]).
Proof.
  intros R [N|[l M]].
  - exists Spec.Dry, [NoteTurbo]. split; [|now right].
    now apply get_target_og_not_standard.
  - destruct (Z.eq_dec t 1) as [->|N].
    + exists l, []. split; [|now left]. now apply get_target_og_standard.
    + exists Spec.Dry, [NoteTurbo]. split; [|now right].
      now apply get_target_og_not_standard.
Qed.

(** ** The target-gravity resolver *)

Local Open Scope float_scope.

(** C1: in Standard mode, for every ABV from 5 to 25 and every sweetness
    string that matches a label case-insensitively, [get_target_og] returns
    the double denoting [FG + abv/131.25] rounded half away from zero to three
    decimals (the correctly rounded quotient by 1000, within half a unit in
    the last place of the exact value), with FG from the table 1.000, 1.010,
    1.020, 1.030; for abv = 14 and Semi-Sweet it returns 1.117. *)
Theorem standard_og_is_rounded_formula :
  (forall (abv : Z) (s : string) (l : Spec.sweetness),
      (5 <= abv <= 25)%Z -> Spec.matches s l ->
      get_target_og abv s 1
      = (decimal3 (Spec.og_millis (Spec.final_gravity l) abv), [])
      /\ near (fst (get_target_og abv s 1))
            (Spec.og_millis (Spec.final_gravity l) abv # 1000) half_ulp = true)
  /\ get_target_og 14 "Semi-Sweet" 1 = (1.117, []).
Proof.
  split; [|reflexivity].
  intros abv s l R M.
  rewrite (get_target_og_standard abv s l M).
  destruct (og_table abv l R) as (E & _ & _ & _ & _ & _ & N).
  split; [now rewrite E | exact N].
Qed.

(** At abv = 14 and the spelling "semi-SWEET". *)
Lemma standard_og_is_rounded_formula_witness :
  get_target_og 14 "semi-SWEET" 1
  = (decimal3 (Spec.og_millis (Spec.final_gravity Spec.SemiSweet) 14), [])
  /\ near (fst (get_target_og 14 "semi-SWEET" 1))
        (Spec.og_millis (Spec.final_gravity Spec.SemiSweet) 14 # 1000) half_ulp
     = true.
Proof.
  apply (proj1 standard_og_is_rounded_formula 14%Z "semi-SWEET"%string Spec.SemiSweet).
  - lia.
  - reflexivity.
Defined.

(** C3 as stated fails in Turbo mode: with abv = 14 and the unrecognized
    token "invalid_token", mode 2 returns 1.107, not the error value. *)
Lemma invalid_sweetness_turbo_counterexample :
  ~ (forall (abv : Z) (s : string) (mode : Z),
        (5 <= abv <= 25)%Z -> mode = 1%Z \/ mode = 2%Z -> ~ Spec.recognized s ->
        (fst (get_target_og abv s mode) =? 0.0) = true).
Proof.
  intro H.
  specialize (H 14%Z "invalid_token"%string 2%Z).
  assert ((fst (get_target_og 14 "invalid_token" 2) =? 0.0) = false) as E
      by (vm_compute; reflexivity).
  rewrite H in E; [discriminate| lia | now right |].
  intros [l M]. destruct l; discriminate M.
Qed.

(** C3, amended: in Standard mode, for every ABV from 5 to 25, a sweetness
    string matching none of the four labels makes [get_target_og] return the
    error value 0.0; [main], for such a token of fewer than 20 bytes (what
    its buffer holds), then exits with status 1 without printing any result
    line, and the GTK calculation shows the error and writes no result. *)
Theorem invalid_sweetness_standard_is_error (abv : Z) (s : string) :
  (5 <= abv <= 25)%Z -> ~ Spec.recognized s ->
  get_target_og abv s 1 = (0.0, [])
  /\ ((String.length s < 20)%nat ->
      forall choice volume,
        fst (main choice volume abv s 1) = 1%Z
        /\ existsb is_result_line (snd (main choice volume abv s 1)) = false)
  /\ (forall volume unit_str,
         Gtk.calculate_ingredients volume abv unit_str s 1
         = (Gtk.MsgInvalidSweetness, None)).
Proof.
  intros R N.
  pose proof (get_target_og_invalid abv s N) as E.
  split; [exact E|]. split.
  - intros _ choice volume. unfold main. rewrite E.
    destruct (negb (choice =? 1)%Z && negb (choice =? 2)%Z); [now split|].
    destruct (volume <=? 0.0); [now split|].
    destruct ((abv <? 5)%Z || (abv >? 25)%Z); now split.
  - intros volume unit_str. unfold Gtk.calculate_ingredients. rewrite E.
    reflexivity.
Qed.

(** At abv = 14 and the token "invalid_token". *)
Lemma invalid_sweetness_standard_is_error_witness :
  get_target_og 14 "invalid_token" 1 = (0.0, [])
  /\ ((String.length "invalid_token" < 20)%nat ->
      forall choice volume,
        fst (main choice volume 14 "invalid_token" 1) = 1%Z
        /\ existsb is_result_line (snd (main choice volume 14 "invalid_token" 1)) = false)
  /\ (forall volume unit_str,
         Gtk.calculate_ingredients volume 14 unit_str "invalid_token" 1
         = (Gtk.MsgInvalidSweetness, None)).
Proof.
  apply (invalid_sweetness_standard_is_error 14%Z "invalid_token"%string).
  - lia.
  - intros [l M]. destruct l; discriminate M.
Defined.

(** C4: in Turbo mode, for every ABV from 5 to 25 and every sweetness string,
    recognized or not, the final gravity is 1.000: [get_target_og] returns the
    double denoting [1.000 + abv/131.25] rounded to three decimals, whatever
    the sweetness, and the GTK calculation shows FG = 1.000. *)
Theorem turbo_og_ignores_sweetness (abv : Z) (s : string) :
  (5 <= abv <= 25)%Z ->
  get_target_og abv s 2 = (decimal3 (Spec.og_millis 1 abv), [NoteTurbo])
  /\ near (fst (get_target_og abv s 2)) (Spec.og_millis 1 abv # 1000) half_ulp
     = true
  /\ (forall volume unit_str,
         option_map Gtk.fg_shown
           (snd (Gtk.calculate_ingredients volume abv unit_str s 2))
         = Some 1.000).
Proof.
  intro R.
  assert (get_target_og abv s 2 = (og_of_fg 1.000 abv, [NoteTurbo])) as E
      by (apply get_target_og_not_standard; lia).
  split; [|split].
  - rewrite E, (proj1 (og_turbo abv R)). reflexivity.
  - rewrite E. exact (proj2 (og_turbo abv R)).
  - intros volume unit_str. unfold Gtk.calculate_ingredients. rewrite E.
    cbn [fst].
    destruct (og_table abv Spec.Dry R) as (_ & Z0 & _).
    cbn [fg_of] in Z0. rewrite Z0.
    cbn [Z.eqb Pos.eqb snd option_map].
    destruct (strcasecmp unit_str "Gallons" =? 0)%Z; reflexivity.
Qed.

(** At abv = 14 and an unrecognized sweetness. *)
Lemma turbo_og_ignores_sweetness_witness :
  get_target_og 14 "no such level" 2 = (decimal3 (Spec.og_millis 1 14), [NoteTurbo])
  /\ near (fst (get_target_og 14 "no such level" 2)) (Spec.og_millis 1 14 # 1000)
        half_ulp = true
  /\ (forall volume unit_str,
         option_map Gtk.fg_shown
           (snd (Gtk.calculate_ingredients volume 14 unit_str "no such level" 2))
         = Some 1.000).
Proof.
  apply (turbo_og_ignores_sweetness 14%Z "no such level"%string). lia.
Defined.




Lemma existsb_is_sweetness_error_results (note : list line) (choice : Z)
    (volume og : float) :
  note = [] \/ note = [NoteTurbo] ->
  existsb is_sweetness_error
    (Menu :: note ++ [HdrResults]
       ++ (if (choice =? 1)%Z then calculate_us_imperial volume og
           else calculate_metric volume og)
       ++ [Complete]) = false.
Proof.
  intros [->| ->];
    destruct (choice =? 1)%Z;
    unfold calculate_us_imperial, calculate_metric, water_line;
    cbn [app existsb is_sweetness_error orb];
    match goal with
    | |- context [if ?c then OutWaterZero _ else _] => destruct c
    end; reflexivity.
Qed.

(** C9: for every ABV from 5 to 25, any sweetness string and any mode
    value, the caller's test [target_og == 0.0] holds exactly when the mode is
    Standard and the sweetness is unrecognized; every other return value is
    at least 1.038.  So [main], once its inputs pass validation, the
    sweetness token having fewer than 20 bytes (what its buffer holds),
    prints the invalid-sweetness error in exactly that case. *)
Theorem error_value_is_exact (abv : Z) (s : string) (t : Z) :
  (5 <= abv <= 25)%Z ->
  ((fst (get_target_og abv s t) =? 0.0) = true
   <-> t = 1%Z /\ ~ Spec.recognized s)
  /\ (t <> 1%Z \/ Spec.recognized s ->
      (1.038 <=? fst (get_target_og abv s t)) = true)
  /\ ((String.length s < 20)%nat ->
      forall choice volume,
        choice = 1%Z \/ choice = 2%Z -> (volume <=? 0.0) = false ->
        t = 1%Z \/ t = 2%Z ->
        (existsb is_sweetness_error (snd (main choice volume abv s t)) = true
         <-> t = 1%Z /\ ~ Spec.recognized s)).
Proof.
  intro R.
  assert (forall V : t <> 1%Z \/ Spec.recognized s,
             exists l note,
               get_target_og abv s t = (og_of_fg (fg_of l) abv, note)
               /\ (note = [] \/ note = [NoteTurbo])
               /\ (og_of_fg (fg_of l) abv =? 0.0) = false
               /\ (1.038 <=? og_of_fg (fg_of l) abv) = true
               /\ (1.225 <? og_of_fg (fg_of l) abv) = false) as K.
  { intro V.
    destruct (get_target_og_valid abv s t R V) as (l & note & E & Hn).
    destruct (og_table abv l R) as (_ & Z0 & L38 & _ & _ & G25 & _).
    exists l, note. repeat split; assumption. }
  assert ((fst (get_target_og abv s t) =? 0.0) = true
          <-> t = 1%Z /\ ~ Spec.recognized s) as Iff.
  { split.
    - intro Z0. split.
      + destruct (Z.eq_dec t 1) as [E|N]; [exact E|].
        destruct (K (or_introl N)) as (l & note & E & _ & F & _).
        rewrite E in Z0. cbn [fst] in Z0. congruence.
      + intro Rec. destruct (K (or_intror Rec)) as (l & note & E & _ & F & _).
        rewrite E in Z0. cbn [fst] in Z0. congruence.
    - intros [-> N]. rewrite (get_target_og_invalid abv s N). reflexivity. }
  split; [exact Iff|]. split.
  - intro V. destruct (K V) as (l & note & E & _ & _ & L38 & _).
    rewrite E. exact L38.
  - intros _ choice volume Hc Hv Ht. rewrite <- Iff. unfold main.
    replace (negb (choice =? 1)%Z && negb (choice =? 2)%Z) with false
      by (destruct Hc as [->| ->]; reflexivity).
    replace (negb (t =? 1)%Z && negb (t =? 2)%Z) with false
      by (destruct Ht as [->| ->]; reflexivity).
    replace ((abv <? 5)%Z || (abv >? 25)%Z) with false
      by (symmetry; apply orb_false_iff; split; lia).
    rewrite Hv.
    destruct (bool_dec (fst (get_target_og abv s t) =? 0.0) true) as [Z0|Z0].
    + apply Iff in Z0. destruct Z0 as [-> N].
      rewrite (get_target_og_invalid abv s N).
      change (0.0 =? 0.0) with true. cbv iota. cbn. tauto.
    + apply not_true_is_false in Z0.
      assert (t <> 1%Z \/ Spec.recognized s) as V.
      { destruct (Z.eq_dec t 1) as [->|N]; [|now left]. right.
        destruct (Z.eq_dec (strcasecmp s "Dry") 0) as [D|D];
          [exists Spec.Dry; now apply strcasecmp_0_iff|].
        destruct (Z.eq_dec (strcasecmp s "Semi-Sweet") 0) as [S1|S1];
          [exists Spec.SemiSweet; now apply strcasecmp_0_iff|].
        destruct (Z.eq_dec (strcasecmp s "Sweet") 0) as [S2|S2];
          [exists Spec.Sweet; now apply strcasecmp_0_iff|].
        destruct (Z.eq_dec (strcasecmp s "Dessert") 0) as [S3|S3];
          [exists Spec.Dessert; now apply strcasecmp_0_iff|].
        exfalso. unfold get_target_og in Z0. cbn [Z.eqb Pos.eqb] in Z0.
        apply Z.eqb_neq in D, S1, S2, S3.
        rewrite D, S1, S2, S3 in Z0. cbn [fst] in Z0.
        discriminate Z0. }
      destruct (K V) as (l & note & E & Hn & F & _ & G25).
      rewrite E. cbn [fst]. rewrite F, G25. cbn [snd].
      rewrite (existsb_is_sweetness_error_results note choice volume _ Hn).
      split; discriminate.
Qed.

(** At the bottom of the domain: abv = 5, Dry, Standard. *)
Lemma error_value_is_exact_witness :
  ((fst (get_target_og 5 "dry" 1) =? 0.0) = true
   <-> 1%Z = 1%Z /\ ~ Spec.recognized "dry")
  /\ (1%Z <> 1%Z \/ Spec.recognized "dry" ->
      (1.038 <=? fst (get_target_og 5 "dry" 1)) = true)
  /\ ((String.length "dry" < 20)%nat ->
      forall choice volume,
        choice = 1%Z \/ choice = 2%Z -> (volume <=? 0.0) = false ->
        1%Z = 1%Z \/ 1%Z = 2%Z ->
        (existsb is_sweetness_error (snd (main choice volume 5 "dry" 1)) = true
         <-> 1%Z = 1%Z /\ ~ Spec.recognized "dry")).
Proof.
  apply (error_value_is_exact 5%Z "dry"%string 1%Z). lia.
Defined.

Lemma og_turbo_percent (abv : Z) :
  (1 <= abv <= 100)%Z ->
  og_of_fg 1.000 abv = decimal3 (Spec.og_millis 1 abv)
  /\ near (og_of_fg 1.000 abv) (Spec.og_millis 1 abv # 1000) half_ulp = true.
Proof.
  intro R.
  assert (og_turbo_percent_ok = true) as T by (vm_compute; reflexivity).
  unfold og_turbo_percent_ok in T. rewrite forallb_forall in T.
  assert (In abv percent_domain) as Hin.
  { unfold percent_domain.
    replace abv with (Z.of_nat (Z.to_nat abv)) by lia.
    apply in_map, in_seq. lia. }
  specialize (T abv Hin).
  apply andb_prop in T. destruct T as [T N].
  apply FloatAxioms.Leibniz.eqb_spec in T. now split.
Qed.

(** C10: every mode value other than 1 takes the Turbo branch: whatever the
    sweetness string, the note is printed, no sweetness is checked, and the
    result is [round ((1.000 + abv/131.25) * 1000) / 1000]; for every ABV
    from 1 to 100 that is the double denoting the exact value of
    [1.000 + abv/131.25] rounded half away from zero to three decimals (1.107
    at abv = 14, for the modes 0, -3, 2 and 3 alike).  Mode 1 alone takes the
    sweetness table, with its error value for an unrecognized string. *)
Theorem mode_other_than_1_is_turbo (abv : Z) (s : string) (t : Z) :
  (t <> 1%Z ->
   get_target_og abv s t
   = (Double.round ((1.000 + Double.of_int abv / 131.25) * 1000.0) / 1000.0,
      [NoteTurbo]))
  /\ (t <> 1%Z -> (1 <= abv <= 100)%Z ->
      get_target_og abv s t = (decimal3 (Spec.og_millis 1 abv), [NoteTurbo])
      /\ near (fst (get_target_og abv s t)) (Spec.og_millis 1 abv # 1000) half_ulp
         = true)
  /\ (get_target_og 14 s 0 = (1.107, [NoteTurbo])
      /\ get_target_og 14 s (-3) = (1.107, [NoteTurbo])
      /\ get_target_og 14 s 2 = (1.107, [NoteTurbo])
      /\ get_target_og 14 s 3 = (1.107, [NoteTurbo])
      /\ get_target_og 5 s 0 = (1.038, [NoteTurbo])
      /\ get_target_og 25 s 0 = (1.19, [NoteTurbo]))
  /\ (t = 1%Z ->
      (forall l, Spec.matches s l ->
         get_target_og abv s t
         = (Double.round ((fg_of l + Double.of_int abv / 131.25) * 1000.0) / 1000.0,
            [])
         /\ ((5 <= abv <= 25)%Z ->
             get_target_og abv s t
             = (decimal3 (Spec.og_millis (Spec.final_gravity l) abv), [])))
      /\ (~ Spec.recognized s -> get_target_og abv s t = (0.0, []))).
Proof.
  split; [|split; [|split]].
  - intro N. now apply get_target_og_not_standard.
  - intros N R. rewrite (get_target_og_not_standard abv s t N). cbn [fst].
    destruct (og_turbo_percent abv R) as [E Nr]. split; [now rewrite E | exact Nr].
  - repeat split; reflexivity.
  - intros ->. split.
    + intros l M. rewrite (get_target_og_standard abv s l M).
      split; [reflexivity|]. intro R.
      destruct (og_table abv l R) as [E _]. now rewrite E.
    + apply get_target_og_invalid.
Qed.

(** At mode -3, abv = 14 and an unrecognized sweetness. *)
Lemma mode_other_than_1_is_turbo_witness :
  get_target_og 14 "invalid_token" (-3)
  = (decimal3 (Spec.og_millis 1 14), [NoteTurbo])
  /\ near (fst (get_target_og 14 "invalid_token" (-3))) (Spec.og_millis 1 14 # 1000)
       half_ulp = true.
Proof.
  apply (proj1 (proj2 (mode_other_than_1_is_turbo 14%Z "invalid_token"%string (-3)%Z))).
  - lia.
  - lia.
Defined.

(** ** The ingredient calculator *)

(** Both calculators branch once, on the sign of the water left. *)
Ltac split_water_line :=
  unfold calculate_us_imperial, calculate_metric, water_line, clamp_zero;
  cbv zeta;
  change GRAVITY_POINTS_PER_UNIT with 35.0;
  change KG_TO_LBS with 2.20462;
  change L_TO_GAL with 0.264172;
  match goal with
  | |- context [if ?c then OutWaterZero _ else _] => destruct c
  end.

Lemma calculate_us_imperial_water (v og : float) :
  reported_water (calculate_us_imperial v og)
  = Some (clamp_zero (v - (og - 1.000) * 1000.0 * v / 35.0 / 10.0 * 0.65)).
Proof. split_water_line; reflexivity. Qed.

Lemma calculate_us_imperial_points (v og : float) :
  reported_points (calculate_us_imperial v og) = Some ((og - 1.000) * 1000.0 * v).
Proof. split_water_line; reflexivity. Qed.

Lemma calculate_metric_water (v og : float) :
  reported_water (calculate_metric v og)
  = Some (clamp_zero
            (v - (og - 1.000) * 1000.0 * (v * 0.264172) / 35.0 / 2.20462 * 0.74)).
Proof. split_water_line; reflexivity. Qed.

Lemma calculate_metric_points (v og : float) :
  reported_points (calculate_metric v og)
  = Some ((og - 1.000) * 1000.0 * (v * 0.264172)).
Proof. split_water_line; reflexivity. Qed.

(** C5: in US units the calculator reports
    gravityPointsNeeded = (OG - 1.000) * 1000 * volumeGal,
    honeyLbs = gravityPointsNeeded / 35.0, and as water
    volumeGal - (honeyLbs / 10.0) * 0.65 clamped at zero; for OG = 1.117 and
    5 gallons that is 585 points, 585/35 lbs and 3.914 gallons to three
    decimals. *)
Theorem us_ingredient_formulas :
  (forall og volumeGal : float,
      (0 <? volumeGal) = true ->
      let gravityPointsNeeded := (og - 1.000) * 1000 * volumeGal in
      let honeyLbs := gravityPointsNeeded / 35.0 in
      let honeyVolumeGal := (honeyLbs / 10.0) * 0.65 in
      reported_points (calculate_us_imperial volumeGal og)
      = Some gravityPointsNeeded
      /\ reported_honey (calculate_us_imperial volumeGal og)
         = Some (honeyLbs, Lbs)
      /\ reported_water (calculate_us_imperial volumeGal og)
         = Some (clamp_zero (volumeGal - honeyVolumeGal)))
  /\ reported_points (calculate_us_imperial 5 1.117) = Some 585
  /\ reported_honey (calculate_us_imperial 5 1.117) = Some (585 / 35, Lbs)
  /\ (exists waterGal,
         reported_water (calculate_us_imperial 5 1.117) = Some waterGal
         /\ near waterGal (3914 # 1000) (1 # 2000) = true).
Proof.
  split; [|split; [|split]].
  - intros og v _. cbv zeta.
    split; [apply calculate_us_imperial_points|]. split; [reflexivity|].
    apply calculate_us_imperial_water.
  - reflexivity.
  - reflexivity.
  - eexists. split; [reflexivity|]. vm_compute. reflexivity.
Qed.

(** At OG = 1.117 and 5 gallons. *)
Lemma us_ingredient_formulas_witness :
  reported_points (calculate_us_imperial 5 1.117) = Some 585
  /\ reported_honey (calculate_us_imperial 5 1.117) = Some (585 / 35, Lbs)
  /\ reported_water (calculate_us_imperial 5 1.117)
     = Some (clamp_zero (5 - (585 / 35 / 10.0) * 0.65)).
Proof.
  apply (proj1 us_ingredient_formulas 1.117 5). reflexivity.
Defined.

(** C6: in metric units the calculator converts
    volumeGal = volumeLiters * 0.264172, takes the gravity points and the
    pounds of honey exactly as the US calculation does on that volume, and
    reports the honey as honeyLbs / 2.20462 kilograms. *)
Theorem metric_honey_from_us_path (og volumeLiters : float) :
  (0 <? volumeLiters) = true ->
  let volumeGal := volumeLiters * 0.264172 in
  reported_points (calculate_metric volumeLiters og)
  = reported_points (calculate_us_imperial volumeGal og)
  /\ reported_points (calculate_metric volumeLiters og)
     = Some ((og - 1.000) * 1000 * volumeGal)
  /\ (exists honeyLbs,
         reported_honey (calculate_us_imperial volumeGal og) = Some (honeyLbs, Lbs)
         /\ honeyLbs = (og - 1.000) * 1000 * volumeGal / 35.0
         /\ reported_honey (calculate_metric volumeLiters og)
            = Some (honeyLbs / 2.20462, Kg)).
Proof.
  intros _. cbv zeta.
  rewrite calculate_metric_points, calculate_us_imperial_points.
  split; [reflexivity|]. split; [reflexivity|].
  eexists. split; [reflexivity|]. split; reflexivity.
Qed.

(** At OG = 1.117 and 20 liters. *)
Lemma metric_honey_from_us_path_witness :
  reported_points (calculate_metric 20 1.117)
  = reported_points (calculate_us_imperial (20 * 0.264172) 1.117)
  /\ reported_points (calculate_metric 20 1.117)
     = Some ((1.117 - 1.000) * 1000 * (20 * 0.264172))
  /\ (exists honeyLbs,
         reported_honey (calculate_us_imperial (20 * 0.264172) 1.117)
         = Some (honeyLbs, Lbs)
         /\ honeyLbs = (1.117 - 1.000) * 1000 * (20 * 0.264172) / 35.0
         /\ reported_honey (calculate_metric 20 1.117)
            = Some (honeyLbs / 2.20462, Kg)).
Proof.
  apply (metric_honey_from_us_path 1.117 20). reflexivity.
Defined.

(** C2 as stated fails: at OG = 1.117 and 20 liters the metric calculation
    reports 14.07 liters of water, while the US water on the converted
    volume, divided by 0.264172, is 15.65 liters. *)
Lemma metric_water_counterexample :
  ~ (forall og volumeL waterL waterGal : float,
        (0 <? volumeL) = true ->
        reported_water (calculate_metric volumeL og) = Some waterL ->
        reported_water (calculate_us_imperial (volumeL * 0.264172) og)
        = Some waterGal ->
        agree_within (1 # 1000000) waterL (waterGal / 0.264172) = true).
Proof.
  intro H.
  specialize (H 1.117 20 _ _ eq_refl eq_refl eq_refl).
  vm_compute in H. discriminate H.
Qed.

(** C2, amended: for every target OG and every positive volume in liters,
    the metric top-off water is computed directly in liters as
    volumeL - honeyKg * 0.74, clamped at zero, with honeyKg the honey
    reported; it is not the US waterGal divided by 0.264172, from which it
    differs by more than the tolerance (at OG = 1.117 and 20 liters,
    14.07 against 15.65 liters). *)
Theorem metric_water_formula :
  (forall og volumeL : float,
      (0 <? volumeL) = true ->
      exists honeyKg,
        reported_honey (calculate_metric volumeL og) = Some (honeyKg, Kg)
        /\ reported_water (calculate_metric volumeL og)
           = Some (clamp_zero (volumeL - honeyKg * 0.74)))
  /\ (exists waterL waterGal,
         reported_water (calculate_metric 20 1.117) = Some waterL
         /\ reported_water (calculate_us_imperial (20 * 0.264172) 1.117)
            = Some waterGal
         /\ near waterL (14072 # 1000) (1 # 1000) = true
         /\ near (waterGal / 0.264172) (15654 # 1000) (1 # 1000) = true
         /\ agree_within (1 # 1000000) waterL (waterGal / 0.264172) = false).
Proof.
  split.
  - intros og v _. eexists. split; [reflexivity|].
    apply calculate_metric_water.
  - do 2 eexists. split; [reflexivity|]. split; [reflexivity|].
    repeat split; vm_compute; reflexivity.
Qed.

(** At OG = 1.117 and 20 liters. *)
Lemma metric_water_formula_witness :
  exists honeyKg,
    reported_honey (calculate_metric 20 1.117) = Some (honeyKg, Kg)
    /\ reported_water (calculate_metric 20 1.117)
       = Some (clamp_zero (20 - honeyKg * 0.74)).
Proof.
  apply (proj1 metric_water_formula 1.117 20). reflexivity.
Defined.

(** ** Order facts on doubles, from the IEEE specification of the primitives *)

Lemma Prim2SF_zero : Prim2SF 0 = S754_zero false.
Proof. reflexivity. Qed.

Lemma ltb_leb (x y : float) : (x <? y) = true -> (x <=? y) = true.
Proof.
  rewrite ltb_spec, leb_spec. unfold SFltb, SFleb.
  destruct (SFcompare (Prim2SF x) (Prim2SF y)) as [[]|]; congruence.
Qed.

Lemma not_leb_not_ltb (x y : float) : (x <=? y) = false -> (x <? y) = false.
Proof.
  intro H. destruct (x <? y) eqn:L; [|reflexivity].
  apply ltb_leb in L. congruence.
Qed.

Lemma leb_0_not_ltb_0 (x : float) : (0 <=? x) = true -> (x <? 0) = false.
Proof.
  rewrite ltb_spec, leb_spec, Prim2SF_zero. unfold SFltb, SFleb.
  destruct (Prim2SF x) as [[]|[]| |[] m e]; cbn; congruence.
Qed.

Lemma clamp_zero_not_negative (w : float) : (clamp_zero w <? 0) = false.
Proof.
  unfold clamp_zero. destruct (w <=? 0) eqn:L; [reflexivity|].
  now apply not_leb_not_ltb.
Qed.

Lemma clamp_zero_of_negative (w : float) : (w <? 0) = true -> clamp_zero w = 0.
Proof.
  intro L. unfold clamp_zero. now rewrite (ltb_leb _ _ L).
Qed.

Lemma fmax_0_nonneg (w : float) :
  (0 <=? Double.fmax 0 w) = true /\ (Double.fmax 0 w <? 0) = false.
Proof.
  assert ((0 <=? Double.fmax 0 w) = true) as H.
  { unfold Double.fmax. change (PrimFloat.is_nan 0) with false. cbv iota.
    destruct (PrimFloat.is_nan w); [reflexivity|].
    destruct (0 <? w) eqn:L; [now apply ltb_leb | reflexivity]. }
  split; [exact H | now apply leb_0_not_ltb_0].
Qed.

Lemma fmax_0_of_negative (w : float) : (w <? 0) = true -> Double.fmax 0 w = 0.
Proof.
  intro L. unfold Double.fmax. change (PrimFloat.is_nan 0) with false. cbv iota.
  destruct (PrimFloat.is_nan w); [reflexivity|].
  destruct (0 <? w) eqn:G; [|reflexivity].
  apply ltb_leb, leb_0_not_ltb_0 in G. congruence.
Qed.

(** ** Operations that cannot produce a NaN

    Rounding a non-negative integer mantissa gives a zero, a finite value or
    an infinity; so multiplying or dividing a number by a finite non-zero
    value, and subtracting when one side is finite and non-zero, gives a
    number. *)

Section NotNaN.

Local Open Scope Z_scope.

Variables prec emax : Z.

Lemma shr_1_nonneg (mrs : shr_record) :
  0 <= shr_m mrs -> 0 <= shr_m (shr_1 mrs).
Proof.
  destruct mrs as [m r s]. destruct m as [|[p|p|]|p]; cbn; lia.
Qed.

Lemma iter_shr_1_nonneg (p : positive) :
  forall mrs, 0 <= shr_m mrs -> 0 <= shr_m (iter_pos shr_1 p mrs).
Proof.
  induction p as [p IH|p IH|]; intros mrs H; cbn.
  - apply IH, IH, shr_1_nonneg, H.
  - apply IH, IH, H.
  - apply shr_1_nonneg, H.
Qed.

Lemma shr_fexp_nonneg (m e : Z) (l : location) :
  0 <= m -> 0 <= shr_m (fst (shr_fexp prec emax m e l)).
Proof.
  intro H. unfold shr_fexp, shr.
  assert (0 <= shr_m (shr_record_of_loc m l)) as H0
      by (destruct l as [|[]]; exact H).
  destruct (fexp prec emax (Zdigits2 m + e) - e); cbn [fst]; try exact H0.
  now apply iter_shr_1_nonneg.
Qed.

Lemma round_nearest_even_nonneg (m : Z) (l : location) :
  0 <= m -> 0 <= round_nearest_even m l.
Proof.
  intro H. destruct l as [|[]]; cbn; try lia.
  destruct (Z.even m); lia.
Qed.

Lemma binary_round_aux_not_nan (s : bool) (m e : Z) (l : location) :
  0 <= m -> binary_round_aux prec emax s m e l <> S754_nan.
Proof.
  intro H. unfold binary_round_aux.
  pose proof (shr_fexp_nonneg m e l H) as H1.
  destruct (shr_fexp prec emax m e l) as [mrs' e']. cbn [fst] in H1.
  pose proof (shr_fexp_nonneg _ e' loc_Exact
                (round_nearest_even_nonneg _ (loc_of_shr_record mrs') H1)) as H2.
  destruct (shr_fexp prec emax _ e' loc_Exact) as [mrs'' e'']. cbn [fst] in H2.
  destruct (shr_m mrs'') as [|q|q]; [discriminate| |lia].
  destruct (e'' <=? emax - prec); discriminate.
Qed.

Lemma binary_normalize_not_nan (m e : Z) (szero : bool) :
  binary_normalize prec emax m e szero <> S754_nan.
Proof.
  unfold binary_normalize, binary_round.
  destruct m as [|p|p]; [discriminate| |];
    destruct (shl_align _ _ _) as [mz ez];
    apply binary_round_aux_not_nan; lia.
Qed.

Lemma SFmul_not_nan (x y : spec_float) :
  x <> S754_nan -> finite_nonzero y -> SFmul prec emax x y <> S754_nan.
Proof.
  intros Hx Hy. destruct y as [| | |sy my ey]; try contradiction.
  destruct x as [sx|sx| |sx mx ex]; cbn; try discriminate; try contradiction.
  apply binary_round_aux_not_nan. lia.
Qed.

Lemma SFdiv_not_nan (x y : spec_float) :
  x <> S754_nan -> finite_nonzero y -> SFdiv prec emax x y <> S754_nan.
Proof.
  intros Hx Hy. destruct y as [| | |sy my ey]; try contradiction.
  destruct x as [sx|sx| |sx mx ex]; cbn [SFdiv]; try discriminate; try contradiction.
  destruct (SFdiv_core_binary prec emax (Z.pos mx) ex (Z.pos my) ey)
    as [[mz ez] lz] eqn:E.
  apply binary_round_aux_not_nan.
  unfold SFdiv_core_binary in E.
  set (m' := match _ - _ - _ with Z0 => _ | Z.pos _ => _ | Z.neg _ => _ end) in E.
  assert (0 <= m') as Hm.
  { subst m'. destruct (_ - _ - _); try lia. apply Z.shiftl_nonneg. lia. }
  pose proof (Z.div_pos m' (Z.pos my) Hm eq_refl) as Hq.
  unfold Z.div in Hq. destruct (Z.div_eucl m' (Z.pos my)) as [q r].
  injection E as <- _ _. exact Hq.
Qed.

Lemma SFsub_not_nan_l (x y : spec_float) :
  finite_nonzero x -> y <> S754_nan -> SFsub prec emax x y <> S754_nan.
Proof.
  intros Hx Hy. destruct x as [| | |sx mx ex]; try contradiction.
  destruct y as [sy|sy| |sy my ey]; cbn [SFsub]; try discriminate; try contradiction.
  apply binary_normalize_not_nan.
Qed.

Lemma SFsub_not_nan_r (x y : spec_float) :
  x <> S754_nan -> finite_nonzero y -> SFsub prec emax x y <> S754_nan.
Proof.
  intros Hx Hy. destruct y as [| | |sy my ey]; try contradiction.
  destruct x as [sx|sx| |sx mx ex]; cbn [SFsub]; try discriminate; try contradiction.
  apply binary_normalize_not_nan.
Qed.

Lemma SFmul_not_nan_l (x y : spec_float) :
  finite_nonzero x -> y <> S754_nan -> SFmul prec emax x y <> S754_nan.
Proof.
  intros Hx Hy. destruct x as [| | |sx mx ex]; try contradiction.
  destruct y as [sy|sy| |sy my ey]; cbn; try discriminate; try contradiction.
  apply binary_round_aux_not_nan. lia.
Qed.

End NotNaN.

Lemma leb_true_number (x y : float) : (x <=? y) = true -> is_number x.
Proof.
  rewrite leb_spec. unfold is_number, SFleb. intros H E. rewrite E in H.
  discriminate H.
Qed.

Lemma positive_finite_nonzero (v : float) :
  (0 <? v) = true -> Double.is_finite v = true -> finite_nonzero (Prim2SF v).
Proof.
  rewrite ltb_spec, Prim2SF_zero. unfold Double.is_finite, SFltb.
  destruct (Prim2SF v) as [[]|[]| |[] m e]; cbn; congruence || trivial.
Qed.

Lemma not_leb_0_leb_0 (x : float) :
  is_number x -> (x <=? 0) = false -> (0 <=? x) = true.
Proof.
  unfold is_number. rewrite !leb_spec, Prim2SF_zero. unfold SFleb.
  destruct (Prim2SF x) as [[]|[]| |[] m e]; cbn; congruence.
Qed.

Lemma clamp_zero_nonneg (w : float) : is_number w -> (0 <=? clamp_zero w) = true.
Proof.
  intro N. unfold clamp_zero. destruct (w <=? 0) eqn:L; [reflexivity|].
  now apply not_leb_0_leb_0.
Qed.

Ltac finite_constant := vm_compute; exact I.

(** The water left in the US calculation is a number when the volume is
    finite and positive and the gravity is a number. *)
Lemma us_water_is_number (v og : float) :
  finite_nonzero (Prim2SF v) -> is_number og ->
  is_number (v - (og - 1.000) * 1000.0 * v / 35.0 / 10.0 * 0.65).
Proof.
  intros Fv Nog. unfold is_number in *.
  rewrite sub_spec. apply SFsub_not_nan_l; [exact Fv|].
  rewrite mul_spec. apply SFmul_not_nan; [|finite_constant].
  rewrite div_spec. apply SFdiv_not_nan; [|finite_constant].
  rewrite div_spec. apply SFdiv_not_nan; [|finite_constant].
  rewrite mul_spec. apply SFmul_not_nan; [|exact Fv].
  rewrite mul_spec. apply SFmul_not_nan; [|finite_constant].
  rewrite sub_spec. apply SFsub_not_nan_r; [exact Nog|finite_constant].
Qed.

(** So is the water left in the metric calculation, when moreover the
    gravity excess in points is finite and not zero. *)
Lemma metric_water_is_number (v og : float) :
  finite_nonzero (Prim2SF v) ->
  finite_nonzero (Prim2SF ((og - 1.000) * 1000.0)) ->
  is_number (v - (og - 1.000) * 1000.0 * (v * 0.264172) / 35.0 / 2.20462 * 0.74).
Proof.
  intros Fv Fx. unfold is_number in *.
  rewrite sub_spec. apply SFsub_not_nan_l; [exact Fv|].
  rewrite mul_spec. apply SFmul_not_nan; [|finite_constant].
  rewrite div_spec. apply SFdiv_not_nan; [|finite_constant].
  rewrite div_spec. apply SFdiv_not_nan; [|finite_constant].
  rewrite mul_spec. apply SFmul_not_nan_l; [exact Fx|].
  rewrite mul_spec. apply SFmul_not_nan_l; [exact Fv|].
  finite_constant || (vm_compute; discriminate).
Qed.

Lemma gravity_excess_finite (k : Z) :
  (1001 <= k <= 1225)%Z ->
  finite_nonzero (Prim2SF ((decimal3 k - 1.000) * 1000.0)).
Proof.
  intro R.
  assert (gravity_excess_ok = true) as T by (vm_compute; reflexivity).
  unfold gravity_excess_ok in T. rewrite forallb_forall in T.
  assert (In k gravity_domain) as Hk.
  { unfold gravity_domain.
    replace k with (Z.of_nat (Z.to_nat k)) by lia.
    apply in_map, in_seq. lia. }
  specialize (T k Hk).
  destruct (Prim2SF ((decimal3 k - 1.000) * 1000.0)); try discriminate T.
  exact I.
Qed.

(** ** Non-negative water *)

(** C7: for every positive batch volume, in either unit system, and every
    target OG with OG <= 1.225, the top-off water reported is never negative:
    a negative difference volume - honeyVolume is reported as zero.  The GTK
    calculation's [waterAmount] is at least zero on every input; so is the
    water the US text calculator reports for a finite volume, and the metric
    one's for a finite volume and a three-decimal OG from 1.001 to 1.225. *)
Theorem reported_water_never_negative (volume og : float) :
  (0 <? volume) = true -> (og <=? 1.225) = true ->
  let raw_gal := volume - (og - 1.000) * 1000 * volume / 35.0 / 10.0 * 0.65 in
  let raw_L :=
    volume - (og - 1.000) * 1000 * (volume * 0.264172) / 35.0 / 2.20462 * 0.74 in
  (exists r,
      reported_water (calculate_us_imperial volume og) = Some r
      /\ (r <? 0) = false
      /\ ((raw_gal <? 0) = true -> r = 0)
      /\ (Double.is_finite volume = true -> (0 <=? r) = true))
  /\ (exists r,
         reported_water (calculate_metric volume og) = Some r
         /\ (r <? 0) = false
         /\ ((raw_L <? 0) = true -> r = 0)
         /\ (Double.is_finite volume = true ->
             forall k, (1001 <= k <= 1225)%Z -> og = decimal3 k ->
             (0 <=? r) = true))
  /\ (forall abv unit_str s mode msg res,
         Gtk.calculate_ingredients volume abv unit_str s mode = (msg, Some res) ->
         (0 <=? Gtk.waterAmount res) = true
         /\ (Gtk.waterAmount res <? 0) = false).
Proof.
  intros Pos Le. cbv zeta. split; [|split].
  - eexists. split; [apply calculate_us_imperial_water|].
    split; [apply clamp_zero_not_negative|].
    split; [apply clamp_zero_of_negative|].
    intro Fin. apply clamp_zero_nonneg, us_water_is_number.
    + now apply positive_finite_nonzero.
    + exact (leb_true_number _ _ Le).
  - eexists. split; [apply calculate_metric_water|].
    split; [apply clamp_zero_not_negative|].
    split; [apply clamp_zero_of_negative|].
    intros Fin k Rk ->. apply clamp_zero_nonneg, metric_water_is_number.
    + now apply positive_finite_nonzero.
    + now apply gravity_excess_finite.
  - intros abv unit_str s mode msg res. unfold Gtk.calculate_ingredients.
    destruct (fst (get_target_og abv s mode) =? 0.0); [discriminate|].
    destruct (strcasecmp unit_str "Gallons" =? 0)%Z;
      intro E; injection E as _ <-; cbn [Gtk.waterAmount];
      apply fmax_0_nonneg.
Qed.

(** At OG = 1.117 and 5 gallons. *)
Lemma reported_water_never_negative_witness :
  exists r,
    reported_water (calculate_us_imperial 5 1.117) = Some r
    /\ (r <? 0) = false
    /\ ((5 - (1.117 - 1.000) * 1000 * 5 / 35.0 / 10.0 * 0.65 <? 0) = true -> r = 0)
    /\ (Double.is_finite 5 = true -> (0 <=? r) = true).
Proof.
  apply (reported_water_never_negative 5 1.117); reflexivity.
Defined.

(** * Beyond the resolver and the calculators: the two front ends *)

Lemma recognized_dec (s : string) : {Spec.recognized s} + {~ Spec.recognized s}.
Proof.
  destruct (Z.eq_dec (strcasecmp s "Dry") 0) as [D|D];
    [left; exists Spec.Dry; now apply strcasecmp_0_iff|].
  destruct (Z.eq_dec (strcasecmp s "Semi-Sweet") 0) as [S1|S1];
    [left; exists Spec.SemiSweet; now apply strcasecmp_0_iff|].
  destruct (Z.eq_dec (strcasecmp s "Sweet") 0) as [S2|S2];
    [left; exists Spec.Sweet; now apply strcasecmp_0_iff|].
  destruct (Z.eq_dec (strcasecmp s "Dessert") 0) as [S3|S3];
    [left; exists Spec.Dessert; now apply strcasecmp_0_iff|].
  right. intros [l M]. apply strcasecmp_0_iff in M.
  destruct l; cbn [Spec.label] in M; contradiction.
Qed.

(** What [get_target_og] hands to [main] once the ABV and the mode have
    passed validation: the error value, or an accepted gravity. *)
Lemma get_target_og_cases (abv : Z) (s : string) (t : Z) :
  (5 <= abv <= 25)%Z -> t = 1%Z \/ t = 2%Z ->
  (t = 1%Z /\ ~ Spec.recognized s /\ get_target_og abv s t = (0.0, []))
  \/ ((t = 2%Z \/ Spec.recognized s)
      /\ exists og note,
           get_target_og abv s t = (og, note)
           /\ (note = [] \/ note = [NoteTurbo])
           /\ (og =? 0.0) = false /\ (1.225 <? og) = false).
Proof.
  intros R Ht.
  assert (t <> 1%Z \/ Spec.recognized s ->
          exists og note,
            get_target_og abv s t = (og, note)
            /\ (note = [] \/ note = [NoteTurbo])
            /\ (og =? 0.0) = false /\ (1.225 <? og) = false) as K.
  { intro V.
    destruct (get_target_og_valid abv s t R V) as (l & note & E & Hn).
    destruct (og_table abv l R) as (_ & Z0 & _ & _ & _ & G25 & _).
    exists (og_of_fg (fg_of l) abv), note. repeat split; assumption. }
  destruct Ht as [->| ->].
  - destruct (recognized_dec s) as [Rec|N].
    + right. split; [now right|]. apply K. now right.
    + left. split; [reflexivity|]. split; [exact N|].
      now apply get_target_og_invalid.
  - right. split; [now left|]. apply K. left. lia.
Qed.

Lemma validation_passed (choice abv mode : Z) :
  (choice = 1 \/ choice = 2)%Z -> (5 <= abv <= 25)%Z -> (mode = 1 \/ mode = 2)%Z ->
  negb (choice =? 1)%Z && negb (choice =? 2)%Z = false
  /\ (abv <? 5)%Z || (abv >? 25)%Z = false
  /\ negb (mode =? 1)%Z && negb (mode =? 2)%Z = false.
Proof.
  intros Hc Ha Hm. repeat split.
  - destruct Hc as [->| ->]; reflexivity.
  - apply orb_false_iff. split; lia.
  - destruct Hm as [->| ->]; reflexivity.
Qed.

Lemma inputs_valid (choice abv mode : Z) :
  negb (choice =? 1)%Z && negb (choice =? 2)%Z = false ->
  (abv <? 5)%Z || (abv >? 25)%Z = false ->
  negb (mode =? 1)%Z && negb (mode =? 2)%Z = false ->
  (choice = 1 \/ choice = 2)%Z /\ (5 <= abv <= 25)%Z /\ (mode = 1 \/ mode = 2)%Z.
Proof.
  intros Ec Ea Em. repeat split.
  - apply andb_false_iff in Ec. rewrite !negb_false_iff, !Z.eqb_eq in Ec. exact Ec.
  - apply orb_false_iff in Ea. lia.
  - apply orb_false_iff in Ea. lia.
  - apply andb_false_iff in Em. rewrite !negb_false_iff, !Z.eqb_eq in Em. exact Em.
Qed.

(** [run] is [main] when every read succeeds and the token fits. *)
Lemma run_parsed (choice : Z) (volume : float) (abv : Z) (s : string) (mode : Z) :
  (String.length s < 20)%nat ->
  run (Some choice) (Some volume) (Some abv) (Some s) (Some mode)
  = Some (main choice volume abv s mode).
Proof.
  intro L. unfold run, main.
  replace (20 <=? String.length s)%nat with false
    by (symmetry; apply Nat.leb_gt; exact L).
  destruct (negb (choice =? 1)%Z && negb (choice =? 2)%Z); [reflexivity|].
  destruct (volume <=? 0.0); [reflexivity|].
  destruct ((abv <? 5)%Z || (abv >? 25)%Z); [reflexivity|].
  destruct (negb (mode =? 1)%Z && negb (mode =? 2)%Z); [reflexivity|].
  destruct (get_target_og abv s mode) as [og note].
  destruct (og =? 0.0); [reflexivity|].
  destruct (1.225 <? og); reflexivity.
Qed.

(** Inputs that contradict the branch the program has taken. *)
Ltac refute :=
  exfalso;
  repeat match goal with
         | H : _ /\ _ |- _ => destruct H
         | H : exists _, _ |- _ => destruct H
         | H : Some _ = Some _ |- _ => injection H as H
         | H : None = Some _ |- _ => discriminate H
         | H : Some _ = None |- _ => discriminate H
         end;
  subst;
  first
    [ congruence
    | match goal with
      | Hc : (?c = 1 \/ ?c = 2)%Z,
        E : negb (?c =? 1)%Z && negb (?c =? 2)%Z = true |- _ =>
          destruct Hc as [->| ->]; discriminate E
      end
    | match goal with
      | E : (?a <? 5)%Z || (?a >? 25)%Z = true |- _ =>
          apply orb_true_iff in E; lia
      end
    | match goal with
      | E : (20 <=? _)%nat = true |- _ => apply Nat.leb_le in E; lia
      end
    | match goal with
      | E : (20 <=? _)%nat = false |- _ => apply Nat.leb_gt in E; lia
      end
    | match goal with
      | Hm : (?m = 2 \/ (?m = 1 /\ _))%Z,
        E : negb (?m =? 1)%Z && negb (?m =? 2)%Z = true |- _ =>
          destruct Hm as [->|[-> _]]; discriminate E
      end ].

(** A branch on which the program prints one message and exits with 1. *)
Ltac exits_with_1 :=
  let H := fresh "H" in
  split;
  [ split; [intros [? H]; discriminate H | intro H; refute]
  | split;
    [ split; [intro H; discriminate H | intro H; refute]
    | intros ? ? H; injection H as <- _; now right ] ].

(** X1: the program exits with status 0 exactly when all five reads succeed,
    the unit choice is 1 or 2, the volume is not at most zero, the ABV is
    between 5 and 25, the sweetness token has fewer than 20 bytes, the yeast
    mode is 1 or 2 and, in mode 1, the token is one of the four labels.  Its
    behaviour is undefined exactly when the choice, the volume and the ABV
    are read and valid and the sweetness token has 20 bytes or more.  In
    every other case, a failed read included, it exits with status 1. *)
Theorem run_exit_status (choice : option Z) (volume : option float)
    (abv : option Z) (sweetness : option string) (mode : option Z) :
  ((exists out, run choice volume abv sweetness mode = Some (0%Z, out))
   <-> exists c v a tok m,
         choice = Some c /\ volume = Some v /\ abv = Some a
         /\ sweetness = Some tok /\ mode = Some m
         /\ (c = 1 \/ c = 2)%Z /\ (v <=? 0.0) = false /\ (5 <= a <= 25)%Z
         /\ (String.length tok < 20)%nat
         /\ (m = 2%Z \/ (m = 1%Z /\ Spec.recognized tok)))
  /\ (run choice volume abv sweetness mode = None
      <-> exists c v a tok,
            choice = Some c /\ volume = Some v /\ abv = Some a
            /\ sweetness = Some tok
            /\ (c = 1 \/ c = 2)%Z /\ (v <=? 0.0) = false /\ (5 <= a <= 25)%Z
            /\ (20 <= String.length tok)%nat)
  /\ (forall st out,
         run choice volume abv sweetness mode = Some (st, out) ->
         st = 0%Z \/ st = 1%Z).
Proof.
  unfold run.
  destruct choice as [c|]; [|exits_with_1].
  destruct (negb (c =? 1)%Z && negb (c =? 2)%Z) eqn:Ec; [exits_with_1|].
  destruct volume as [v|]; [|exits_with_1].
  destruct (v <=? 0.0) eqn:Ev; [exits_with_1|].
  destruct abv as [a|]; [|exits_with_1].
  destruct ((a <? 5)%Z || (a >? 25)%Z) eqn:Ea; [exits_with_1|].
  destruct sweetness as [tok|]; [|exits_with_1].
  assert ((c = 1 \/ c = 2)%Z /\ (5 <= a <= 25)%Z) as [Hc Ha].
  { apply andb_false_iff in Ec. rewrite !negb_false_iff, !Z.eqb_eq in Ec.
    apply orb_false_iff in Ea. split; [exact Ec | lia]. }
  destruct (20 <=? String.length tok)%nat eqn:El.
  { apply Nat.leb_le in El. split; [|split].
    - split; [intros [out H]; discriminate H|].
      intros (c' & v' & a' & tok' & m' & _ & _ & _ & Et & _ & _ & _ & _ & L & _).
      injection Et as <-. lia.
    - split; [|reflexivity]. intros _.
      exists c, v, a, tok. repeat split; try assumption; lia.
    - intros st out H. discriminate H. }
  destruct mode as [m|]; [|exits_with_1].
  destruct (negb (m =? 1)%Z && negb (m =? 2)%Z) eqn:Em; [exits_with_1|].
  assert ((m = 1 \/ m = 2)%Z) as Hm.
  { apply andb_false_iff in Em. rewrite !negb_false_iff, !Z.eqb_eq in Em. exact Em. }
  destruct (get_target_og_cases a tok m Ha Hm)
    as [(M1 & N & E)|(V & og & note & E & _ & Z0 & G25)]; rewrite E.
  - change (0.0 =? 0.0) with true. cbv iota. split; [|split].
    + split; [intros [out H]; discriminate H|].
      intros (c' & v' & a' & tok' & m' & _ & _ & _ & Et & Emm & _ & _ & _ & _ & Hmm).
      injection Et as <-. injection Emm as <-.
      destruct Hmm as [M2|[_ Rec]]; [lia | contradiction].
    + split; [intro H; discriminate H | intro H; refute].
    + intros st out H. injection H as <- _. now right.
  - rewrite Z0, G25. split; [|split].
    + split; [|intros _; eexists; reflexivity]. intros _.
      exists c, v, a, tok, m. apply Nat.leb_gt in El.
      repeat split; try assumption; try lia.
      destruct V as [V|V]; [now left|].
      destruct Hm as [Hm|Hm]; [right; now split | now left].
    + split; [intro H; discriminate H | intro H; refute].
    + intros st out H. injection H as <- _. now left.
Qed.

Lemma results_block_shape (note : list line) (choice : Z) (volume og : float) :
  note = [] \/ note = [NoteTurbo] ->
  let out :=
    Menu :: note ++ [HdrResults]
      ++ (if (choice =? 1)%Z then calculate_us_imperial volume og
          else calculate_metric volume og)
      ++ [Complete] in
  diagnostics out = 0%nat
  /\ existsb is_result_line out = true
  /\ last out Menu = Complete
  /\ reported_water out <> None.
Proof.
  intros [->| ->];
    destruct (choice =? 1)%Z;
    unfold calculate_us_imperial, calculate_metric, water_line;
    cbv zeta;
    match goal with
    | |- context [if ?c then OutWaterZero _ else _] => destruct c
    end; repeat split; discriminate.
Qed.

(** X2: a run of the program with defined behaviour, failed reads included,
    either exits with status 0, having printed the result block, down to its
    closing line, and no diagnostic, or exits with status 1 having printed
    exactly one diagnostic and no result line. *)
Theorem run_results_or_one_diagnostic (choice : option Z) (volume : option float)
    (abv : option Z) (sweetness : option string) (mode : option Z)
    (st : Z) (out : list line) :
  run choice volume abv sweetness mode = Some (st, out) ->
  (st = 0%Z
   /\ diagnostics out = 0%nat
   /\ existsb is_result_line out = true
   /\ last out Menu = Complete
   /\ reported_water out <> None)
  \/ (st = 1%Z
      /\ diagnostics out = 1%nat
      /\ existsb is_result_line out = false
      /\ reported_water out = None).
Proof.
  unfold run.
  destruct choice as [c|];
    [|intro H; injection H as <- <-; right; repeat split].
  destruct (negb (c =? 1)%Z && negb (c =? 2)%Z) eqn:Ec;
    [intro H; injection H as <- <-; right; repeat split|].
  destruct volume as [v|];
    [|intro H; injection H as <- <-; right; repeat split].
  destruct (v <=? 0.0) eqn:Ev;
    [intro H; injection H as <- <-; right; repeat split|].
  destruct abv as [a|];
    [|intro H; injection H as <- <-; right; repeat split].
  destruct ((a <? 5)%Z || (a >? 25)%Z) eqn:Ea;
    [intro H; injection H as <- <-; right; repeat split|].
  destruct sweetness as [tok|];
    [|intro H; injection H as <- <-; right; repeat split].
  destruct (20 <=? String.length tok)%nat; [discriminate|].
  destruct mode as [m|];
    [|intro H; injection H as <- <-; right; repeat split].
  destruct (negb (m =? 1)%Z && negb (m =? 2)%Z) eqn:Em;
    [intro H; injection H as <- <-; right; repeat split|].
  destruct (inputs_valid c a m Ec Ea Em) as (_ & Ha & Hm).
  destruct (get_target_og_cases a tok m Ha Hm)
    as [(M1 & N & E)|(V & og & note & E & Hn & Z0 & G25)]; rewrite E.
  - change (0.0 =? 0.0) with true. cbv iota.
    intro H; injection H as <- <-. right. repeat split.
  - rewrite Z0, G25. intro H; injection H as <- <-. left.
    split; [reflexivity|].
    exact (results_block_shape note c v og Hn).
Qed.

(** On 5 gallons, abv = 14, Semi-Sweet, Standard. *)
Lemma run_results_or_one_diagnostic_witness :
  exists st out,
    run (Some 1%Z) (Some 5) (Some 14%Z) (Some "Semi-Sweet"%string) (Some 1%Z)
    = Some (st, out)
    /\ ((st = 0%Z
         /\ diagnostics out = 0%nat
         /\ existsb is_result_line out = true
         /\ last out Menu = Complete
         /\ reported_water out <> None)
        \/ (st = 1%Z
            /\ diagnostics out = 1%nat
            /\ existsb is_result_line out = false
            /\ reported_water out = None)).
Proof.
  do 2 eexists. split; [vm_compute; reflexivity|].
  apply (run_results_or_one_diagnostic
           (Some 1%Z) (Some 5) (Some 14%Z) (Some "Semi-Sweet"%string) (Some 1%Z)).
  vm_compute. reflexivity.
Defined.

(** ** NaN in and out *)

Lemma SFadd_not_nan_l (prec emax : Z) (x y : spec_float) :
  finite_nonzero x -> y <> S754_nan -> SFadd prec emax x y <> S754_nan.
Proof.
  intros Hx Hy. destruct x as [| | |sx mx ex]; try contradiction.
  destruct y as [sy|sy| |sy my ey]; cbn [SFadd]; try discriminate; try contradiction.
  apply binary_normalize_not_nan.
Qed.

Lemma SFcompare_refl (x : spec_float) :
  x <> S754_nan -> SFcompare x x = Some Eq.
Proof.
  intro N. destruct x as [[]|[]| |[] m e]; cbn; try reflexivity; try contradiction;
    rewrite Z.compare_refl, Pos.compare_cont_refl; reflexivity.
Qed.

(** A double is a number exactly when it equals itself. *)
Lemma is_number_iff (x : float) : is_number x <-> PrimFloat.is_nan x = false.
Proof.
  unfold is_number, PrimFloat.is_nan. rewrite negb_false_iff, eqb_spec.
  unfold SFeqb. split.
  - intro N. now rewrite (SFcompare_refl _ N).
  - intros H E. rewrite E in H. discriminate H.
Qed.

Lemma is_nan_Prim2SF (x : float) :
  PrimFloat.is_nan x = true -> Prim2SF x = S754_nan.
Proof.
  intro H. destruct (Prim2SF x) eqn:E; try reflexivity;
    assert (is_number x) as N by (unfold is_number; rewrite E; discriminate);
    apply is_number_iff in N; congruence.
Qed.

Lemma Prim2SF_nan_eq (x : float) : Prim2SF x = S754_nan -> x = nan.
Proof.
  intro E. rewrite <- (SF2Prim_Prim2SF x), E. reflexivity.
Qed.

Lemma SFopp_not_nan (x : spec_float) : x <> S754_nan -> SFopp x <> S754_nan.
Proof. destruct x; cbn; congruence. Qed.

Lemma of_uint63_is_number (n : Z) :
  Prim2SF (of_uint63 (Uint63.of_Z n)) <> S754_nan.
Proof. rewrite of_uint63_spec. apply binary_normalize_not_nan. Qed.

Lemma of_int_is_number (z : Z) : is_number (Double.of_int z).
Proof.
  unfold is_number, Double.of_int.
  destruct (z <? 0)%Z.
  - rewrite opp_spec. apply SFopp_not_nan, of_uint63_is_number.
  - apply of_uint63_is_number.
Qed.

Lemma round_is_number (x : float) : is_number x -> is_number (Double.round x).
Proof.
  unfold is_number, Double.round. intro N.
  destruct (Prim2SF x) as [s0|s0| |s0 m e] eqn:E; try (rewrite E; discriminate);
    [contradiction|].
  destruct (0 <=? e)%Z; [rewrite E; discriminate|].
  destruct s0.
  - rewrite opp_spec. apply SFopp_not_nan, of_uint63_is_number.
  - apply of_uint63_is_number.
Qed.

Lemma og_of_fg_is_number (fg : float) (abv : Z) :
  finite_nonzero (Prim2SF fg) -> is_number (og_of_fg fg abv).
Proof.
  intro F. unfold og_of_fg. cbv zeta.
  unfold is_number. rewrite div_spec. apply SFdiv_not_nan; [|finite_constant].
  apply round_is_number. unfold is_number.
  rewrite mul_spec. apply SFmul_not_nan; [|finite_constant].
  rewrite add_spec. apply SFadd_not_nan_l; [exact F|].
  rewrite div_spec. apply SFdiv_not_nan; [|finite_constant].
  apply of_int_is_number.
Qed.

Lemma get_target_og_number (abv : Z) (s : string) (t : Z) :
  is_number (fst (get_target_og abv s t)).
Proof.
  unfold get_target_og.
  repeat match goal with
         | |- context [if ?c then _ else _] => destruct c
         end; cbn [fst];
    try (apply og_of_fg_is_number; finite_constant).
  unfold is_number. rewrite Prim2SF_zero. discriminate.
Qed.

(** X3: whatever the ABV (any integer), the sweetness string and the mode,
    [get_target_og] never returns a NaN: its result always equals itself, so
    the caller's comparisons with 0.0 and 1.225 are comparisons of numbers. *)
Theorem get_target_og_never_nan (abv : Z) (s : string) (t : Z) :
  PrimFloat.is_nan (fst (get_target_og abv s t)) = false
  /\ (fst (get_target_og abv s t) =? fst (get_target_og abv s t)) = true.
Proof.
  pose proof (get_target_og_number abv s t) as N.
  apply is_number_iff in N. split; [exact N|].
  unfold PrimFloat.is_nan in N. now apply negb_false_iff in N.
Qed.

Lemma mul_nan_r (x : float) : x * nan = nan.
Proof.
  apply Prim2SF_nan_eq. rewrite mul_spec.
  change (Prim2SF nan) with S754_nan.
  destruct (Prim2SF x); reflexivity.
Qed.

(** X4: a NaN volume passes validation, in both front ends ([NaN <= 0.0] is
    false).  With the other inputs valid and a sweetness token of fewer than
    20 bytes, [main] exits with status 0 and reports NaN honey and NaN water;
    the GTK calculation shows NaN honey and, through [fmax], zero water. *)
Theorem nan_volume_is_not_rejected (choice : Z) (volume : float) (abv : Z)
    (s : string) (mode : Z) :
  PrimFloat.is_nan volume = true ->
  (choice = 1 \/ choice = 2)%Z -> (5 <= abv <= 25)%Z ->
  (String.length s < 20)%nat ->
  mode = 2%Z \/ (mode = 1%Z /\ Spec.recognized s) ->
  fst (main choice volume abv s mode) = 0%Z
  /\ reported_water (snd (main choice volume abv s mode)) = Some nan
  /\ (exists u, reported_honey (snd (main choice volume abv s mode)) = Some (nan, u))
  /\ (forall unit_str (turbo : bool),
         mode = (if turbo then 2 else 1)%Z ->
         exists msg res,
           GtkShell.on_calculate_button_clicked volume abv unit_str s turbo
           = GtkShell.Calculated (msg, Some res)
           /\ Gtk.honeyAmount res = nan
           /\ Gtk.waterAmount res = 0).
Proof.
  intros Hn Hc Ha _ Hm.
  assert (volume = nan) as -> by now apply Prim2SF_nan_eq, is_nan_Prim2SF.
  assert ((mode = 1 \/ mode = 2)%Z) as Hm' by (destruct Hm as [->|[-> _]]; auto).
  destruct (validation_passed choice abv mode Hc Ha Hm') as (Vc & Va & Vm).
  assert (exists og note,
             get_target_og abv s mode = (og, note)
             /\ (note = [] \/ note = [NoteTurbo])
             /\ (og =? 0.0) = false /\ (1.225 <? og) = false) as K.
  { destruct (get_target_og_cases abv s mode Ha Hm')
      as [(M1 & N & _)|(_ & K)]; [|exact K].
    exfalso. destruct Hm as [->|[_ Rec]]; [lia | contradiction]. }
  destruct K as (og & note & E & Hnote & Z0 & G25).
  assert (fst (main choice nan abv s mode) = 0%Z
          /\ reported_water (snd (main choice nan abv s mode)) = Some nan
          /\ exists u, reported_honey (snd (main choice nan abv s mode))
                       = Some (nan, u)) as M.
  { unfold main. rewrite Vc, Va, Vm, E, Z0, G25.
    change (nan <=? 0.0) with false. cbv iota. cbn [fst snd].
    split; [reflexivity|].
    destruct Hnote as [->| ->]; destruct (choice =? 1)%Z;
      unfold calculate_us_imperial, calculate_metric; cbv zeta;
      change (nan * L_TO_GAL) with nan; rewrite mul_nan_r;
      (split; [reflexivity | eexists; reflexivity]). }
  destruct M as (M0 & Mw & Mh). repeat split; try assumption.
  intros unit_str turbo Et.
  unfold GtkShell.on_calculate_button_clicked.
  change (nan <=? 0.0) with false.
  replace (abv <=? 0)%Z with false by (symmetry; apply Z.leb_gt; lia).
  cbv iota. cbn [orb]. cbv zeta. rewrite <- Et.
  assert (fst (get_target_og abv (if (mode =? 2)%Z then "Dry"%string else s) mode)
          = og) as Eg.
  { destruct Hm as [->|[-> _]]; cbn [Z.eqb Pos.eqb].
    - rewrite get_target_og_not_standard in E by lia.
      rewrite get_target_og_not_standard by lia.
      now injection E as <- _.
    - now rewrite E. }
  unfold Gtk.calculate_ingredients. rewrite Eg, Z0.
  destruct (strcasecmp unit_str "Gallons" =? 0)%Z; cbv zeta;
    change (nan * L_TO_GAL) with nan; rewrite mul_nan_r;
    do 2 eexists; (split; [reflexivity|]); split; reflexivity.
Qed.

(** With the NaN itself as volume, in gallons. *)
Lemma nan_volume_is_not_rejected_witness :
  fst (main 1 nan 14 "Dry" 1) = 0%Z
  /\ reported_water (snd (main 1 nan 14 "Dry" 1)) = Some nan
  /\ (exists u, reported_honey (snd (main 1 nan 14 "Dry" 1)) = Some (nan, u))
  /\ (forall unit_str (turbo : bool),
         1%Z = (if turbo then 2 else 1)%Z ->
         exists msg res,
           GtkShell.on_calculate_button_clicked nan 14 unit_str "Dry" turbo
           = GtkShell.Calculated (msg, Some res)
           /\ Gtk.honeyAmount res = nan
           /\ Gtk.waterAmount res = 0).
Proof.
  apply (nan_volume_is_not_rejected 1%Z nan 14%Z "Dry"%string 1%Z).
  - reflexivity.
  - now left.
  - lia.
  - cbn. lia.
  - right. split; [reflexivity|]. exists Spec.Dry. reflexivity.
Defined.

(** ** The GTK calculation *)

(** X5: whenever the GTK calculation writes results, the FG it shows, which
    it works out with its own second copy of the sweetness table, is one of
    the four table values and is the FG from which the OG it shows was
    computed. *)
Theorem gtk_fg_shown_is_fg_used (volume : float) (abv : Z)
    (unit_str s : string) (mode : Z) (msg : Gtk.message) (res : Gtk.results) :
  Gtk.calculate_ingredients volume abv unit_str s mode = (msg, Some res) ->
  Gtk.og_shown res
  = Double.round ((Gtk.fg_shown res + Double.of_int abv / 131.25) * 1000.0) / 1000.0
  /\ (Gtk.fg_shown res = 1.000 \/ Gtk.fg_shown res = 1.010
      \/ Gtk.fg_shown res = 1.020 \/ Gtk.fg_shown res = 1.030).
Proof.
  unfold Gtk.calculate_ingredients, get_target_og.
  destruct (mode =? 1)%Z;
    [destruct (strcasecmp s "Dry" =? 0)%Z;
     [|destruct (strcasecmp s "Semi-Sweet" =? 0)%Z;
       [|destruct (strcasecmp s "Sweet" =? 0)%Z;
         [|destruct (strcasecmp s "Dessert" =? 0)%Z]]]|];
    cbn [fst];
    try (change (0.0 =? 0.0) with true; cbv iota; discriminate);
    match goal with
    | |- context [if (?og =? 0.0) then _ else _] => destruct (og =? 0.0)
    end; try discriminate;
    destruct (strcasecmp unit_str "Gallons" =? 0)%Z;
    intro H; injection H as _ <-; cbn [Gtk.og_shown Gtk.fg_shown];
    (split; [reflexivity | tauto]).
Qed.

(** On the start-up call of the front end. *)
Lemma gtk_fg_shown_is_fg_used_witness :
  exists res,
    Gtk.calculate_ingredients 5 14 "Gallons" "Semi-Sweet" 1 = (Gtk.MsgDone, Some res)
    /\ Gtk.og_shown res
       = Double.round ((Gtk.fg_shown res + Double.of_int 14 / 131.25) * 1000.0) / 1000.0
    /\ (Gtk.fg_shown res = 1.000 \/ Gtk.fg_shown res = 1.010
        \/ Gtk.fg_shown res = 1.020 \/ Gtk.fg_shown res = 1.030).
Proof.
  eexists. split; [reflexivity|].
  apply (gtk_fg_shown_is_fg_used 5 14%Z "Gallons"%string "Semi-Sweet"%string 1%Z
           Gtk.MsgDone).
  reflexivity.
Defined.

(** ** The two front ends on the same inputs *)

Lemma og_millis_range (abv : Z) (l : Spec.sweetness) :
  (5 <= abv <= 25)%Z ->
  (1001 <= Spec.og_millis (Spec.final_gravity l) abv <= 1225)%Z.
Proof.
  intro R.
  assert (og_millis_range_ok = true) as T by (vm_compute; reflexivity).
  unfold og_millis_range_ok in T.
  rewrite forallb_forall in T. specialize (T abv (abv_domain_spec abv R)).
  rewrite forallb_forall in T. specialize (T l (all_levels_spec l)).
  cbv zeta in T. apply andb_prop in T. lia.
Qed.

(** An accepted gravity is a three-decimal double from 1.001 to 1.225. *)
Lemma get_target_og_accepted (abv : Z) (s : string) (t : Z) :
  (5 <= abv <= 25)%Z -> t <> 1%Z \/ Spec.recognized s ->
  exists k note,
    get_target_og abv s t = (decimal3 k, note)
    /\ (note = [] \/ note = [NoteTurbo])
    /\ (1001 <= k <= 1225)%Z
    /\ (decimal3 k =? 0.0) = false
    /\ (1.225 <? decimal3 k) = false.
Proof.
  intros R V.
  destruct (get_target_og_valid abv s t R V) as (l & note & E & Hn).
  destruct (og_table abv l R) as (D & Z0 & _ & _ & _ & G25 & _).
  cbv zeta in D. rewrite D in E, Z0, G25.
  exists (Spec.og_millis (Spec.final_gravity l) abv), note.
  repeat split; try assumption; apply og_millis_range; exact R.
Qed.

Lemma ltb_0_not_leb_0 (x : float) : (0 <? x) = true -> (x <=? 0) = false.
Proof.
  rewrite ltb_spec, leb_spec, Prim2SF_zero. unfold SFltb, SFleb.
  destruct (Prim2SF x) as [[]|[]| |[] m e]; cbn; congruence.
Qed.

(** On a number the text calculators' branch and the GTK [fmax] report the
    same water. *)
Lemma clamp_zero_fmax (w : float) : is_number w -> clamp_zero w = Double.fmax 0 w.
Proof.
  intro N. unfold clamp_zero, Double.fmax.
  change (PrimFloat.is_nan 0) with false. cbv iota.
  pose proof N as N'. apply is_number_iff in N'. rewrite N'.
  unfold is_number in N. revert N.
  rewrite ltb_spec, leb_spec, Prim2SF_zero. unfold SFltb, SFleb.
  destruct (Prim2SF w) as [[]|[]| |[] m e]; cbn; congruence.
Qed.

Lemma reported_in_results_block (note : list line) (choice : Z) (volume og : float) :
  note = [] \/ note = [NoteTurbo] ->
  let calc := if (choice =? 1)%Z then calculate_us_imperial volume og
              else calculate_metric volume og in
  let out := Menu :: note ++ [HdrResults] ++ calc ++ [Complete] in
  reported_og out = Some og
  /\ reported_honey out = reported_honey calc
  /\ reported_water out = reported_water calc.
Proof.
  intros [->| ->];
    destruct (choice =? 1)%Z;
    unfold calculate_us_imperial, calculate_metric, water_line;
    cbv zeta;
    match goal with
    | |- context [if ?c then OutWaterZero _ else _] => destruct c
    end; repeat split.
Qed.

(** X6: the two front ends agree.  For a finite positive volume, an ABV from
    5 to 25, a sweetness of fewer than 20 bytes (a token [main]'s buffer
    holds), a mode and a sweetness [main] accepts, and the unit combo box set
    as the unit choice, the GTK handler writes results, and they are the
    gravity, the honey amount with its unit and the top-off water that [main]
    prints. *)
Theorem front_ends_agree (choice : Z) (volume : float) (abv : Z)
    (unit_str s : string) (mode : Z) (turbo : bool) :
  (0 <? volume) = true -> Double.is_finite volume = true ->
  (5 <= abv <= 25)%Z ->
  (String.length s < 20)%nat ->
  mode = (if turbo then 2 else 1)%Z ->
  mode = 2%Z \/ Spec.recognized s ->
  (choice = 1%Z /\ strcasecmp unit_str "Gallons" = 0%Z)
  \/ (choice = 2%Z /\ strcasecmp unit_str "Gallons" <> 0%Z) ->
  exists msg res,
    GtkShell.on_calculate_button_clicked volume abv unit_str s turbo
    = GtkShell.Calculated (msg, Some res)
    /\ fst (main choice volume abv s mode) = 0%Z
    /\ reported_og (snd (main choice volume abv s mode)) = Some (Gtk.og_shown res)
    /\ reported_honey (snd (main choice volume abv s mode))
       = Some (Gtk.honeyAmount res, Gtk.honeyUnit res)
    /\ reported_water (snd (main choice volume abv s mode))
       = Some (Gtk.waterAmount res).
Proof.
  intros Pos Fin Ha _ Et Hm Hu.
  assert ((mode = 1 \/ mode = 2)%Z) as Hm' by (destruct turbo; lia).
  assert ((choice = 1 \/ choice = 2)%Z) as Hc by (destruct Hu as [[-> _]|[-> _]]; auto).
  destruct (validation_passed choice abv mode Hc Ha Hm') as (Vc & Va & Vm).
  assert (mode <> 1%Z \/ Spec.recognized s) as V
      by (destruct Hm as [->|Rec]; [left; lia | now right]).
  destruct (get_target_og_accepted abv s mode Ha V)
    as (k & note & E & Hnote & Rk & Z0 & G25).
  pose proof (positive_finite_nonzero volume Pos Fin) as Fv.
  pose proof (ltb_0_not_leb_0 volume Pos) as Ev.
  assert (is_number (decimal3 k)) as Nog.
  { replace (decimal3 k) with (fst (get_target_og abv s mode)) by now rewrite E.
    apply get_target_og_number. }
  (* the handler *)
  assert (fst (get_target_og abv (if (mode =? 2)%Z then "Dry"%string else s) mode)
          = decimal3 k) as Eg.
  { destruct (Z.eqb_spec mode 2) as [->|_]; [|now rewrite E].
    rewrite get_target_og_not_standard in E by lia.
    rewrite get_target_og_not_standard by lia.
    now injection E as <- _. }
  unfold GtkShell.on_calculate_button_clicked.
  rewrite Ev. replace (abv <=? 0)%Z with false by (symmetry; apply Z.leb_gt; lia).
  cbn [orb]. cbv zeta. rewrite <- Et.
  unfold Gtk.calculate_ingredients. rewrite Eg, Z0.
  (* the text program *)
  unfold main. rewrite Vc, Ev, Va, Vm, E, Z0, G25. cbn [fst snd].
  destruct (reported_in_results_block note choice volume (decimal3 k) Hnote)
    as (Ro & Rh & Rw).
  cbv zeta in Ro, Rh, Rw. rewrite Ro, Rh, Rw.
  destruct Hu as [[-> Eu]|[-> Eu]]; cbn [Z.eqb Pos.eqb].
  - rewrite Eu. cbn [Z.eqb]. do 2 eexists. split; [reflexivity|].
    cbn [Gtk.og_shown Gtk.honeyAmount Gtk.honeyUnit Gtk.waterAmount].
    split; [reflexivity|]. split; [reflexivity|]. split; [reflexivity|].
    rewrite calculate_us_imperial_water. f_equal.
    apply clamp_zero_fmax, us_water_is_number; assumption.
  - apply Z.eqb_neq in Eu. rewrite Eu. do 2 eexists. split; [reflexivity|].
    cbn [Gtk.og_shown Gtk.honeyAmount Gtk.honeyUnit Gtk.waterAmount].
    split; [reflexivity|]. split; [reflexivity|]. split; [reflexivity|].
    rewrite calculate_metric_water. f_equal.
    apply clamp_zero_fmax, metric_water_is_number; [assumption|].
    now apply gravity_excess_finite.
Qed.

(** At 20 liters, abv = 14, Semi-Sweet, Standard. *)
Lemma front_ends_agree_witness :
  exists msg res,
    GtkShell.on_calculate_button_clicked 20 14 "Liters" "Semi-Sweet" false
    = GtkShell.Calculated (msg, Some res)
    /\ fst (main 2 20 14 "Semi-Sweet" 1) = 0%Z
    /\ reported_og (snd (main 2 20 14 "Semi-Sweet" 1)) = Some (Gtk.og_shown res)
    /\ reported_honey (snd (main 2 20 14 "Semi-Sweet" 1))
       = Some (Gtk.honeyAmount res, Gtk.honeyUnit res)
    /\ reported_water (snd (main 2 20 14 "Semi-Sweet" 1))
       = Some (Gtk.waterAmount res).
Proof.
  apply (front_ends_agree 2%Z 20 14%Z "Liters"%string "Semi-Sweet"%string 1%Z false).
  - reflexivity.
  - reflexivity.
  - lia.
  - cbn. lia.
  - reflexivity.
  - right. exists Spec.SemiSweet. reflexivity.
  - right. split; [reflexivity|]. discriminate.
Defined.

(** ** What the GTK handler lets through *)

Lemma high_abv_domain_spec (abv : Z) : (30 <= abv <= 100)%Z -> In abv high_abv_domain.
Proof.
  intro H. unfold high_abv_domain.
  replace abv with (Z.of_nat (Z.to_nat abv)) by lia.
  apply in_map, in_seq. lia.
Qed.

Lemma high_abv_table (abv : Z) (l : Spec.sweetness) :
  (30 <= abv <= 100)%Z ->
  (1.225 <? og_of_fg (fg_of l) abv) = true
  /\ (og_of_fg (fg_of l) abv <=? 1.225) = false
  /\ (og_of_fg (fg_of l) abv =? 0.0) = false.
Proof.
  intro R.
  assert (high_abv_ok = true) as T by (vm_compute; reflexivity).
  unfold high_abv_ok in T.
  rewrite forallb_forall in T. specialize (T abv (high_abv_domain_spec abv R)).
  rewrite forallb_forall in T. specialize (T l (all_levels_spec l)).
  cbv zeta in T.
  repeat (apply andb_prop in T; destruct T as [T ?]).
  repeat match goal with
         | H : negb _ = true |- _ => apply negb_true_iff in H
         end.
  repeat split; assumption.
Qed.

(** X7: the GTK handler has no upper ABV bound.  For an ABV from 30 to 100,
    which [main] always refuses with status 1, a click with a volume that is
    not at most zero still writes results, with an OG above 1.225.  With the
    switch off and a recognized sweetness the high-gravity warning stays on
    screen; with the Turbo switch on it is overwritten by the Turbo
    completion message. *)
Theorem gtk_accepts_high_abv (volume : float) (abv : Z) (unit_str s : string)
    (turbo : bool) :
  (volume <=? 0.0) = false -> (30 <= abv <= 100)%Z ->
  turbo = true \/ Spec.recognized s ->
  (exists res,
      GtkShell.on_calculate_button_clicked volume abv unit_str s turbo
      = GtkShell.Calculated
          ((if turbo then Gtk.MsgTurboDone else Gtk.MsgWarnHighOG), Some res)
      /\ (1.225 <? Gtk.og_shown res) = true)
  /\ (forall choice mode, fst (main choice volume abv s mode) = 1%Z).
Proof.
  intros Ev Ha Hs. split.
  - assert (exists l,
               get_target_og abv
                 (if ((if turbo then 2 else 1) =? 2)%Z then "Dry"%string else s)
                 (if turbo then 2 else 1)%Z
               = (og_of_fg (fg_of l) abv, if turbo then [NoteTurbo] else [])) as [l E].
    { destruct turbo; cbn [Z.eqb Pos.eqb].
      - exists Spec.Dry. apply get_target_og_not_standard. lia.
      - destruct Hs as [Hs|[l M]]; [discriminate|].
        exists l. now apply get_target_og_standard. }
    destruct (high_abv_table abv l Ha) as (G & L & Z0).
    unfold GtkShell.on_calculate_button_clicked.
    rewrite Ev. replace (abv <=? 0)%Z with false by (symmetry; apply Z.leb_gt; lia).
    cbn [orb]. cbv zeta.
    unfold Gtk.calculate_ingredients. rewrite E. cbn [fst]. rewrite Z0, G, L.
    destruct turbo; cbn [Z.eqb Pos.eqb];
      destruct (strcasecmp unit_str "Gallons" =? 0)%Z;
      eexists; (split; [reflexivity | exact G]).
  - intros choice mode. unfold main.
    destruct (negb (choice =? 1)%Z && negb (choice =? 2)%Z); [reflexivity|].
    rewrite Ev.
    replace ((abv <? 5)%Z || (abv >? 25)%Z) with true; [reflexivity|].
    symmetry. apply orb_true_iff. right. lia.
Qed.

(** At 5 gallons, abv = 40, Dessert, switch off. *)
Lemma gtk_accepts_high_abv_witness :
  (exists res,
      GtkShell.on_calculate_button_clicked 5 40 "Gallons" "Dessert" false
      = GtkShell.Calculated (Gtk.MsgWarnHighOG, Some res)
      /\ (1.225 <? Gtk.og_shown res) = true)
  /\ (forall choice mode, fst (main choice 5 40 "Dessert" mode) = 1%Z).
Proof.
  apply (gtk_accepts_high_abv 5 40%Z "Gallons"%string "Dessert"%string false).
  - reflexivity.
  - lia.
  - right. exists Spec.Dessert. reflexivity.
Defined.

(** ** More on the resolver *)

Lemma og_order_table (abv : Z) (l : Spec.sweetness) :
  (5 <= abv <= 25)%Z ->
  (forall abv', (5 <= abv' <= 25)%Z -> (abv < abv')%Z ->
     (og_of_fg (fg_of l) abv <? og_of_fg (fg_of l) abv') = true)
  /\ og_of_fg (fg_of l) abv
     = decimal3 (Spec.og_millis (Spec.final_gravity Spec.Dry) abv
                 + (Spec.fg_millis l - 1000)).
Proof.
  intro R.
  assert (og_order_ok = true) as T by (vm_compute; reflexivity).
  unfold og_order_ok in T.
  rewrite forallb_forall in T. specialize (T abv (abv_domain_spec abv R)).
  rewrite forallb_forall in T. specialize (T l (all_levels_spec l)).
  apply andb_prop in T. destruct T as [T1 T2].
  split.
  - intros abv' R' Lt. rewrite forallb_forall in T1.
    specialize (T1 abv' (abv_domain_spec abv' R')).
    apply orb_prop in T1. destruct T1 as [T1|T1]; [|exact T1].
    apply negb_true_iff, Z.ltb_ge in T1. lia.
  - now apply FloatAxioms.Leibniz.eqb_spec.
Qed.

(** X8: on the validated domain, in Standard mode, the target gravity grows
    strictly with the ABV for a fixed sweetness, and for a fixed ABV each
    sweetness level lies above Dry by exactly its final-gravity offset (10,
    20 or 30 thousandths): rounding never swallows a step. *)
Theorem og_grows_with_abv_and_sweetness (abv abv' : Z) (s : string)
    (l : Spec.sweetness) :
  (5 <= abv <= 25)%Z -> (5 <= abv' <= 25)%Z -> Spec.matches s l ->
  ((abv < abv')%Z ->
   (fst (get_target_og abv s 1) <? fst (get_target_og abv' s 1)) = true)
  /\ (exists k,
         fst (get_target_og abv "Dry" 1) = decimal3 k
         /\ fst (get_target_og abv s 1) = decimal3 (k + (Spec.fg_millis l - 1000))).
Proof.
  intros R R' M.
  rewrite !(get_target_og_standard _ s l M). cbn [fst].
  destruct (og_order_table abv l R) as [Lt Off].
  split.
  - intro H. now apply Lt.
  - exists (Spec.og_millis (Spec.final_gravity Spec.Dry) abv).
    rewrite (get_target_og_standard abv "Dry" Spec.Dry eq_refl). cbn [fst].
    split; [|exact Off].
    destruct (og_table abv Spec.Dry R) as [D _]. exact D.
Qed.

(** From abv = 12 to 13, Sweet. *)
Lemma og_grows_with_abv_and_sweetness_witness :
  ((12 < 13)%Z ->
   (fst (get_target_og 12 "sweet" 1) <? fst (get_target_og 13 "sweet" 1)) = true)
  /\ (exists k,
         fst (get_target_og 12 "Dry" 1) = decimal3 k
         /\ fst (get_target_og 12 "sweet" 1)
            = decimal3 (k + (Spec.fg_millis Spec.Sweet - 1000))).
Proof.
  apply (og_grows_with_abv_and_sweetness 12%Z 13%Z "sweet"%string Spec.Sweet).
  - lia.
  - lia.
  - reflexivity.
Defined.

(** X9: the resolver inverts the ABV formula of its comment.  On the
    validated domain, in Standard mode, [(OG - FG) * 131.25], taken exactly
    on the double returned and the table's final gravity, is within 0.066 of
    the ABV asked for, so it rounds back to that ABV. *)
Theorem og_gives_back_abv (abv : Z) (s : string) (l : Spec.sweetness) :
  (5 <= abv <= 25)%Z -> Spec.matches s l ->
  Double.is_finite (fst (get_target_og abv s 1)) = true
  /\ (abv_error (fst (get_target_og abv s 1)) l abv <= 66 # 1000)%Q
  /\ Spec.round_half_away
       ((Double.to_Q (fst (get_target_og abv s 1)) - Spec.final_gravity l)
        * (13125 # 100)) = abv.
Proof.
  intros R M. rewrite (get_target_og_standard abv s l M). cbn [fst].
  assert (abv_round_trip_ok = true) as T by (vm_compute; reflexivity).
  unfold abv_round_trip_ok in T.
  rewrite forallb_forall in T. specialize (T abv (abv_domain_spec abv R)).
  rewrite forallb_forall in T. specialize (T l (all_levels_spec l)).
  apply andb_prop in T. destruct T as [T Rd].
  apply andb_prop in T. destruct T as [F E].
  apply Qle_bool_iff in E. apply Z.eqb_eq in Rd.
  repeat split; assumption.
Qed.

(** At abv = 14, Semi-Sweet. *)
Lemma og_gives_back_abv_witness :
  Double.is_finite (fst (get_target_og 14 "Semi-Sweet" 1)) = true
  /\ (abv_error (fst (get_target_og 14 "Semi-Sweet" 1)) Spec.SemiSweet 14
      <= 66 # 1000)%Q
  /\ Spec.round_half_away
       ((Double.to_Q (fst (get_target_og 14 "Semi-Sweet" 1))
         - Spec.final_gravity Spec.SemiSweet)
        * (13125 # 100)) = 14%Z.
Proof.
  apply (og_gives_back_abv 14%Z "Semi-Sweet"%string Spec.SemiSweet).
  - lia.
  - reflexivity.
Defined.

Lemma strcasecmp_eqb_casefold (s s' x : string) :
  Spec.casefold s = Spec.casefold s' ->
  (strcasecmp s x =? 0)%Z = (strcasecmp s' x =? 0)%Z.
Proof.
  intro E. apply eq_true_iff_eq. rewrite !Z.eqb_eq, !strcasecmp_0_iff, E.
  reflexivity.
Qed.

(** X10: [get_target_og] sees its sweetness argument only through the
    lowered bytes before the first NUL: two strings that agree there get the
    same result and the same output, for every ABV and every mode; and no
    string matches two levels, so the order of the four comparisons is
    immaterial. *)
Theorem get_target_og_case_insensitive (abv : Z) (s s' : string) (t : Z) :
  Spec.casefold s = Spec.casefold s' ->
  get_target_og abv s t = get_target_og abv s' t
  /\ (forall l l', Spec.matches s l -> Spec.matches s' l' -> l = l').
Proof.
  intro E. split.
  - unfold get_target_og.
    rewrite !(strcasecmp_eqb_casefold s s' _ E). reflexivity.
  - intros l l'. unfold Spec.matches. rewrite E. intros -> H.
    destruct l, l'; try reflexivity; discriminate H.
Qed.

(** On two spellings of Semi-Sweet. *)
Lemma get_target_og_case_insensitive_witness :
  get_target_og 14 "SEMI-SWEET" 1 = get_target_og 14 "semi-sweet" 1
  /\ (forall l l', Spec.matches "SEMI-SWEET" l -> Spec.matches "semi-sweet" l' ->
        l = l').
Proof.
  apply (get_target_og_case_insensitive 14%Z "SEMI-SWEET"%string "semi-sweet"%string 1%Z).
  reflexivity.
Defined.

(** ** Non-negative honey *)

Section Signs.

Local Open Scope Z_scope.

Variables prec emax : Z.

(** Rounding keeps the sign it is given. *)
Lemma binary_round_aux_sign (s : bool) (m e : Z) (l : location) :
  0 <= m ->
  match binary_round_aux prec emax s m e l with
  | S754_zero s' | S754_infinity s' | S754_finite s' _ _ => s' = s
  | S754_nan => False
  end.
Proof.
  intro H. unfold binary_round_aux.
  pose proof (shr_fexp_nonneg prec emax m e l H) as H1.
  destruct (shr_fexp prec emax m e l) as [mrs' e']. cbn [fst] in H1.
  pose proof (shr_fexp_nonneg prec emax _ e' loc_Exact
                (round_nearest_even_nonneg _ (loc_of_shr_record mrs') H1)) as H2.
  destruct (shr_fexp prec emax _ e' loc_Exact) as [mrs'' e'']. cbn [fst] in H2.
  destruct (shr_m mrs'') as [|q|q]; [reflexivity| |lia].
  destruct (e'' <=? emax - prec); reflexivity.
Qed.

Lemma binary_round_aux_nonneg (m e : Z) (l : location) :
  0 <= m -> nonneg_sf (binary_round_aux prec emax false m e l).
Proof.
  intro H. pose proof (binary_round_aux_sign false m e l H) as S.
  destruct (binary_round_aux prec emax false m e l); cbn;
    try (rewrite S; exact I); contradiction.
Qed.

Lemma SFmul_nonneg (x y : spec_float) :
  nonneg_sf x -> positive_finite y -> nonneg_sf (SFmul prec emax x y).
Proof.
  intros Hx Hy. destruct y as [| | |[] my ey]; try contradiction.
  destruct x as [[]|[]| |[] mx ex]; try contradiction; cbn; try exact I.
  apply binary_round_aux_nonneg. lia.
Qed.

Lemma SFmul_nonneg_l (x y : spec_float) :
  positive_finite x -> nonneg_sf y -> nonneg_sf (SFmul prec emax x y).
Proof.
  intros Hx Hy. destruct x as [| | |[] mx ex]; try contradiction.
  destruct y as [[]|[]| |[] my ey]; try contradiction; cbn; try exact I.
  apply binary_round_aux_nonneg. lia.
Qed.

Lemma SFdiv_nonneg (x y : spec_float) :
  nonneg_sf x -> positive_finite y -> nonneg_sf (SFdiv prec emax x y).
Proof.
  intros Hx Hy. destruct y as [| | |[] my ey]; try contradiction.
  destruct x as [[]|[]| |[] mx ex]; try contradiction; cbn [SFdiv xorb]; try exact I.
  destruct (SFdiv_core_binary prec emax (Z.pos mx) ex (Z.pos my) ey)
    as [[mz ez] lz] eqn:E.
  apply binary_round_aux_nonneg.
  unfold SFdiv_core_binary in E.
  set (m' := match _ - _ - _ with Z0 => _ | Z.pos _ => _ | Z.neg _ => _ end) in E.
  assert (0 <= m') as Hm.
  { subst m'. destruct (_ - _ - _); try lia. apply Z.shiftl_nonneg. lia. }
  pose proof (Z.div_pos m' (Z.pos my) Hm eq_refl) as Hq.
  unfold Z.div in Hq. destruct (Z.div_eucl m' (Z.pos my)) as [q r].
  injection E as <- _ _. exact Hq.
Qed.

End Signs.

Lemma nonneg_sf_leb_0 (x : float) : nonneg_sf (Prim2SF x) -> (0 <=? x) = true.
Proof.
  rewrite leb_spec, Prim2SF_zero. unfold SFleb.
  destruct (Prim2SF x) as [[]|[]| |[] m e]; cbn; intro H;
    try contradiction; reflexivity.
Qed.

Lemma positive_nonneg_sf (v : float) : (0 <? v) = true -> nonneg_sf (Prim2SF v).
Proof.
  rewrite ltb_spec, Prim2SF_zero. unfold SFltb.
  destruct (Prim2SF v) as [[]|[]| |[] m e]; cbn; congruence || trivial.
Qed.

Lemma gravity_excess_positive (k : Z) :
  (1001 <= k <= 1225)%Z ->
  positive_finite (Prim2SF ((decimal3 k - 1.000) * 1000.0)).
Proof.
  intro R.
  assert (gravity_excess_positive_ok = true) as T by (vm_compute; reflexivity).
  unfold gravity_excess_positive_ok in T. rewrite forallb_forall in T.
  assert (In k gravity_domain) as Hk.
  { unfold gravity_domain.
    replace k with (Z.of_nat (Z.to_nat k)) by lia.
    apply in_map, in_seq. lia. }
  specialize (T k Hk).
  destruct (Prim2SF ((decimal3 k - 1.000) * 1000.0)) as [| | |[] m e];
    try discriminate T.
  exact I.
Qed.

Ltac positive_constant := vm_compute; exact I.

Lemma us_points_honey_nonneg (v og : float) :
  nonneg_sf (Prim2SF v) -> positive_finite (Prim2SF ((og - 1.000) * 1000.0)) ->
  nonneg_sf (Prim2SF ((og - 1.000) * 1000.0 * v))
  /\ nonneg_sf (Prim2SF ((og - 1.000) * 1000.0 * v / 35.0)).
Proof.
  intros Nv Px.
  assert (nonneg_sf (Prim2SF ((og - 1.000) * 1000.0 * v))) as P
      by (rewrite mul_spec; now apply SFmul_nonneg_l).
  split; [exact P|].
  rewrite div_spec. apply SFdiv_nonneg; [exact P | positive_constant].
Qed.

Lemma metric_points_honey_nonneg (v og : float) :
  nonneg_sf (Prim2SF v) -> positive_finite (Prim2SF ((og - 1.000) * 1000.0)) ->
  nonneg_sf (Prim2SF ((og - 1.000) * 1000.0 * (v * 0.264172)))
  /\ nonneg_sf (Prim2SF ((og - 1.000) * 1000.0 * (v * 0.264172) / 35.0 / 2.20462)).
Proof.
  intros Nv Px.
  assert (nonneg_sf (Prim2SF (v * 0.264172))) as G
      by (rewrite mul_spec; apply SFmul_nonneg; [exact Nv | positive_constant]).
  assert (nonneg_sf (Prim2SF ((og - 1.000) * 1000.0 * (v * 0.264172)))) as P
      by (rewrite mul_spec; now apply SFmul_nonneg_l).
  split; [exact P|].
  rewrite div_spec. apply SFdiv_nonneg; [|positive_constant].
  rewrite div_spec. apply SFdiv_nonneg; [exact P | positive_constant].
Qed.

(** X11: for every positive volume, finite or not, and every three-decimal
    gravity from 1.001 to 1.225, the total gravity points and the honey
    amount reported are at least zero, in pounds and in kilograms, in the
    text calculators and in the GTK calculation alike. *)
Theorem honey_never_negative (volume : float) (k : Z) :
  (0 <? volume) = true -> (1001 <= k <= 1225)%Z ->
  (exists p h,
      reported_points (calculate_us_imperial volume (decimal3 k)) = Some p
      /\ reported_honey (calculate_us_imperial volume (decimal3 k)) = Some (h, Lbs)
      /\ (0 <=? p) = true /\ (0 <=? h) = true)
  /\ (exists p h,
         reported_points (calculate_metric volume (decimal3 k)) = Some p
         /\ reported_honey (calculate_metric volume (decimal3 k)) = Some (h, Kg)
         /\ (0 <=? p) = true /\ (0 <=? h) = true)
  /\ (forall abv unit_str s mode msg res,
         fst (get_target_og abv s mode) = decimal3 k ->
         Gtk.calculate_ingredients volume abv unit_str s mode = (msg, Some res) ->
         (0 <=? Gtk.honeyAmount res) = true).
Proof.
  intros Pos Rk.
  pose proof (positive_nonneg_sf volume Pos) as Nv.
  pose proof (gravity_excess_positive k Rk) as Px.
  destruct (us_points_honey_nonneg volume (decimal3 k) Nv Px) as [Up Uh].
  destruct (metric_points_honey_nonneg volume (decimal3 k) Nv Px) as [Mp Mh].
  split; [|split].
  - do 2 eexists. split; [apply calculate_us_imperial_points|].
    split; [reflexivity|]. split; now apply nonneg_sf_leb_0.
  - do 2 eexists. split; [apply calculate_metric_points|].
    split; [reflexivity|]. split; now apply nonneg_sf_leb_0.
  - intros abv unit_str s mode msg res Eg.
    unfold Gtk.calculate_ingredients. rewrite Eg.
    destruct (decimal3 k =? 0.0); [discriminate|].
    destruct (strcasecmp unit_str "Gallons" =? 0)%Z;
      intro E; injection E as _ <-; cbn [Gtk.honeyAmount];
      now apply nonneg_sf_leb_0.
Qed.

(** At 5 gallons (or liters) and OG = 1.117. *)
Lemma honey_never_negative_witness :
  (exists p h,
      reported_points (calculate_us_imperial 5 (decimal3 1117)) = Some p
      /\ reported_honey (calculate_us_imperial 5 (decimal3 1117)) = Some (h, Lbs)
      /\ (0 <=? p) = true /\ (0 <=? h) = true)
  /\ (exists p h,
         reported_points (calculate_metric 5 (decimal3 1117)) = Some p
         /\ reported_honey (calculate_metric 5 (decimal3 1117)) = Some (h, Kg)
         /\ (0 <=? p) = true /\ (0 <=? h) = true)
  /\ (forall abv unit_str s mode msg res,
         fst (get_target_og abv s mode) = decimal3 1117 ->
         Gtk.calculate_ingredients 5 abv unit_str s mode = (msg, Some res) ->
         (0 <=? Gtk.honeyAmount res) = true).
Proof.
  apply (honey_never_negative 5 1117%Z).
  - reflexivity.
  - lia.
Defined.

(** ** Turbo is Dry *)

(** X12: a Turbo run of [main] is the Standard run on "Dry" with the Turbo
    note added: for every unit choice, volume and ABV, valid or not, and
    every sweetness token of fewer than 20 bytes (what the buffer holds), the
    two runs exit with the same status, and the Turbo run's output without the
    note is the Standard-Dry run's output, line for line. *)
Theorem turbo_run_is_dry_run (choice : Z) (volume : float) (abv : Z) (s : string) :
  (String.length s < 20)%nat ->
  fst (main choice volume abv s 2) = fst (main choice volume abv "Dry" 1)
  /\ filter (fun l => negb (is_turbo_note l)) (snd (main choice volume abv s 2))
     = snd (main choice volume abv "Dry" 1).
Proof.
  intros _. unfold main.
  destruct (negb (choice =? 1)%Z && negb (choice =? 2)%Z); [now split|].
  destruct (volume <=? 0.0); [now split|].
  destruct ((abv <? 5)%Z || (abv >? 25)%Z); [now split|].
  cbn [Z.eqb Pos.eqb negb andb].
  rewrite (get_target_og_not_standard abv s 2) by lia.
  rewrite (get_target_og_standard abv "Dry" Spec.Dry eq_refl).
  cbn [fg_of].
  destruct (og_of_fg 1.000 abv =? 0.0); [now split|].
  destruct (1.225 <? og_of_fg 1.000 abv); [now split|].
  cbn [fst snd]. split; [reflexivity|].
  destruct (choice =? 1)%Z;
    unfold calculate_us_imperial, calculate_metric, water_line; cbv zeta;
    match goal with
    | |- context [if ?c then OutWaterZero _ else _] => destruct c
    end; reflexivity.
Qed.

(** On 5 gallons at abv = 14, with "Sweet" selected. *)
Lemma turbo_run_is_dry_run_witness :
  fst (main 1 5 14 "Sweet" 2) = fst (main 1 5 14 "Dry" 1)
  /\ filter (fun l => negb (is_turbo_note l)) (snd (main 1 5 14 "Sweet" 2))
     = snd (main 1 5 14 "Dry" 1).
Proof.
  apply (turbo_run_is_dry_run 1%Z 5 14%Z "Sweet"%string). cbn. lia.
Defined.
